(** * Office Brain: conversation state, retrieval block and index build

    A shallow embedding of [app.py] and [create_vector_db.py].

    - Python [str] is [string]; one [ascii] stands for one character.
    - A Python [dict] keeps its keys in insertion order, and the sidebar
      depends on that order, so dicts are association lists with the
      update rule of the interpreter (an existing key keeps its place).
    - Message lists are mutable objects that are shared between
      [st.session_state.messages] and the entries of
      [st.session_state.full_history]; they live in a heap and are named
      by their address.
    - The file system is a finite map from file names to file contents.
    - The embedding service, the FAISS store, the text splitter and the
      completion service are external; they are the fields of [Services].
      A call that raises returns [Raise e], with [e] the text of the
      exception. *)

From stdpp Require Import gmap strings list.

Local Open Scope string_scope.
Local Open Scope list_scope.

(** ** Python values *)

Definition nl : string := String (Ascii.ascii_of_nat 10) EmptyString.

(** [sep.join(parts)] *)
Fixpoint str_join (sep : string) (parts : list string) : string :=
  match parts with
  | [] => ""
  | [p] => p
  | p :: rest => p +:+ sep +:+ str_join sep rest
  end.

Inductive result (A : Type) : Type :=
| Return (a : A)
| Raise (e : string).
Arguments Return {A} a.
Arguments Raise {A} e.

(** A [dict] with [str] keys, in insertion order. *)
Abbreviation pydict V := (list (string * V)).

Fixpoint dict_get {V : Type} (k : string) (d : pydict V) : option V :=
  match d with
  | [] => None
  | (k', v) :: rest => if decide (k = k') then Some v else dict_get k rest
  end.

(** [k in d] *)
Definition dict_in {V : Type} (k : string) (d : pydict V) : bool :=
  bool_decide (k ∈ d.*1).

(** [d[k] = v]: a key that is present keeps its position and gets the new
    value, a new key goes to the end. *)
Fixpoint dict_set {V : Type} (k : string) (v : V) (d : pydict V) : pydict V :=
  match d with
  | [] => [(k, v)]
  | (k', v') :: rest =>
      if decide (k = k') then (k, v) :: rest else (k', v') :: dict_set k v rest
  end.

(** [del d[k]], for a key that is present; every caller tests [k in d]
    first. *)
Definition dict_del {V : Type} (k : string) (d : pydict V) : pydict V :=
  filter (λ kv, kv.1 ≠ k) d.

(** ** Messages and titles *)

Record Message : Type := mkMessage { role : string; content : string }.

Definition user_message (text : string) : Message := mkMessage "user" text.
Definition assistant_message (text : string) : Message := mkMessage "assistant" text.

(** [get_session_title], app.py lines 126-130. [s[:30]] is
    [String.substring 0 30 s]. *)
Fixpoint get_session_title (messages : list Message) : string :=
  match messages with
  | [] => "New Chat"
  | m :: rest =>
      if decide (role m = "user")
      then String.substring 0 30 (content m) +:+ "..."
      else get_session_title rest
  end.

(** ** External collaborators *)

Record Document : Type := mkDocument { page_content : string }.

(** One turn of the history handed to [model.start_chat]. *)
Record GeminiTurn : Type := mkGeminiTurn { gemini_role : string; parts : list string }.

(** The libraries the program calls. [Index] is the FAISS store.
    - [split_documents]: [RecursiveCharacterTextSplitter(chunk_size,
      chunk_overlap).split_documents].
    - [from_documents]: [FAISS.from_documents(texts, embeddings)]; it
      embeds every passage and raises when the embedding service does.
    - [similarity_search]: [vector_db.similarity_search(prompt, k)]; it
      embeds the query and searches the store.
    - [send_message]: [GenerativeModel(system_instruction).start_chat(history)
      .send_message(prompt).text]. *)
Class Services : Type := {
  Index : Type;
  split_documents : nat → nat → list Document → result (list Document);
  from_documents : list Document → result Index;
  similarity_search : Index → string → nat → result (list Document);
  send_message : string → list GeminiTurn → string → result string;
}.

(** ** Durable storage *)

(** A session as [json.dump] writes it. [title] and [timestamp] are read
    back with [data.get], so a file may lack them. *)
Record JsonEntry : Type := mkJsonEntry {
  json_title : option string;
  json_messages : list Message;
  json_timestamp : option string;
}.

(** What a file holds: a JSON document that parses to a history dict, the
    text of the knowledge base, a saved FAISS store, or bytes that none of
    the readers accepts. *)
Inductive file `{Services} : Type :=
| JsonFile (history : pydict JsonEntry)
| TextFile (text : string)
| IndexDir (index : Index)
| Corrupt.

Abbreviation disk := (gmap string file).

Definition KNOWLEDGE_FILE : string := "knowledge.txt".
Definition FAISS_INDEX_PATH : string := "faiss_index".

(** [os.path.exists(name)] *)
Definition exists_ `{Services} (name : string) (fs : disk) : bool :=
  bool_decide (is_Some (fs !! name)).

(** ** Process memory *)

(** The address of a list object. *)
Definition loc : Type := nat.
Abbreviation heap := (gmap loc (list Message)).

Definition deref (h : heap) (l : loc) : list Message := default [] (h !! l).

(** A new list object holding [ms]. *)
Definition alloc (ms : list Message) (h : heap) : loc * heap :=
  let l := fresh (dom h) in (l, <[l := ms]> h).

(** [lst.append(m)] on the object at [l]. *)
Definition list_append (l : loc) (m : Message) (h : heap) : heap :=
  <[l := deref h l ++ [m]]> h.

(** A value of [st.session_state.full_history]: its [messages] field is a
    reference to a list object. *)
Record HistoryEntry : Type := mkHistoryEntry {
  entry_title : option string;
  entry_messages : loc;
  entry_timestamp : option string;
}.

(** [st.session_state] of an authenticated run. *)
Record SessionState : Type := mkSessionState {
  username : option string;
  guest_mode : bool;
  full_history : pydict HistoryEntry;
  current_session_id : string;
  messages : loc;
}.

(** The session state, the objects it points to, and the files. *)
Record Run `{Services} : Type := mkRun {
  state : SessionState;
  memory : heap;
  files : disk;
}.
Arguments mkRun {_} state memory files.

(** ** The conversation store: [load_history] and [save_history] *)

(** [f"history_{username}.json"] *)
Definition history_filename (user : string) : string :=
  "history_" +:+ user +:+ ".json".

(** What [json.dump(history, f)] writes: every message list is copied out
    of the heap. *)
Definition json_dump (h : heap) (history : pydict HistoryEntry) : pydict JsonEntry :=
  prod_map id (λ e, mkJsonEntry (entry_title e) (deref h (entry_messages e))
                                (entry_timestamp e)) <$> history.

(** What [json.load(f)] builds: a new list object for every session. *)
Fixpoint json_load (j : pydict JsonEntry) (h : heap) : pydict HistoryEntry * heap :=
  match j with
  | [] => ([], h)
  | (sid, e) :: rest =>
      let '(l, h1) := alloc (json_messages e) h in
      let '(d, h2) := json_load rest h1 in
      ((sid, mkHistoryEntry (json_title e) l (json_timestamp e)) :: d, h2)
  end.

(** [load_history], app.py lines 61-73. [not username] holds for [None]
    and for the empty string; a file that does not parse gives [{}]. *)
Definition load_history `{Services} (user : option string) (h : heap) (fs : disk)
  : pydict HistoryEntry * heap :=
  match user with
  | None => ([], h)
  | Some u =>
      if decide (u = "") then ([], h)
      else
        match fs !! history_filename u with
        | Some (JsonFile j) => json_load j h
        | Some _ => ([], h)
        | None => ([], h)
        end
  end.

(** [save_history], app.py lines 75-81. *)
Definition save_history `{Services} (h : heap) (history : pydict HistoryEntry)
    (user : option string) (fs : disk) : disk :=
  match user with
  | None => fs
  | Some u =>
      if decide (u = "") then fs
      else <[history_filename u := JsonFile (json_dump h history)]> fs
  end.

(** ** The sidebar, app.py lines 453-492 *)

Record SessionItem : Type := mkSessionItem {
  item_id : string;
  item_title : string;
  item_timestamp : string;
}.

(** Lines 461-463, in the order of [full_history.items()]. *)
Definition sessions_list (history : pydict HistoryEntry) : list SessionItem :=
  (λ kv, mkSessionItem kv.1 (default "Untitled" (entry_title kv.2))
                       (default "" (entry_timestamp kv.2))) <$> history.

(** The order in which the sidebar shows the sessions:
    [reversed(sessions_list)], line 468. *)
Definition list_sessions (history : pydict HistoryEntry) : list SessionItem :=
  reverse (sessions_list history).

(** [full_history[sid]] *)
Definition get (sid : string) (history : pydict HistoryEntry) : option HistoryEntry :=
  dict_get sid history.

(** The first run of an authenticated session, lines 334-345. [fresh_id]
    is the value of [str(uuid.uuid4())]. *)
Definition init_session `{Services} (user : option string) (guest : bool)
    (fresh_id : string) (h : heap) (fs : disk) : Run :=
  let '(history, h1) := if guest then ([], h) else load_history user h fs in
  let '(l, h2) := alloc [] h1 in
  mkRun (mkSessionState user guest history fresh_id l) h2 fs.

(** The New Chat button, lines 453-456. *)
Definition new_chat `{Services} (fresh_id : string) (r : Run) : Run :=
  let st := state r in
  let '(l, h) := alloc [] (memory r) in
  mkRun (mkSessionState (username st) (guest_mode st) (full_history st) fresh_id l)
        h (files r).

(** The button of a session, lines 478-481: the working list becomes the
    stored list object itself. The buttons are drawn from the keys of
    [full_history], so the lookup finds the entry. *)
Definition select_session `{Services} (sid : string) (r : Run) : Run :=
  let st := state r in
  match dict_get sid (full_history st) with
  | Some data =>
      mkRun (mkSessionState (username st) (guest_mode st) (full_history st) sid
                            (entry_messages data))
            (memory r) (files r)
  | None => r
  end.

(** The delete button of a session, lines 484-492. [fresh_id] is the value
    of [str(uuid.uuid4())], drawn only when the current session goes. *)
Definition delete_session `{Services} (sid fresh_id : string) (r : Run) : Run :=
  let st := state r in
  if dict_in sid (full_history st) then
    let history := dict_del sid (full_history st) in
    let fs := if guest_mode st then files r
              else save_history (memory r) history (username st) (files r) in
    if decide (current_session_id st = sid) then
      let '(l, h) := alloc [] (memory r) in
      mkRun (mkSessionState (username st) (guest_mode st) history fresh_id l) h fs
    else
      mkRun (mkSessionState (username st) (guest_mode st) history
                            (current_session_id st) (messages st))
            (memory r) fs
  else r.

(** ** The chat input handler, app.py lines 517-587 *)

Definition base_system_prompt : string :=
  nl +:+ "    You are a helpful and friendly Office Assistant AI."
  +:+ nl +:+ "    Answer questions based ONLY on the provided context below. "
  +:+ nl +:+ "    Keep answers short and professional."
  +:+ nl +:+ "    ".

(** The text of the f-string of line 547 before the context. *)
Definition preamble : string :=
  base_system_prompt +:+ nl +:+ nl +:+ "CONTEXT:" +:+ nl.

(** Line 547: [f"{base_system_prompt}\n\nCONTEXT:\n{context}"]. *)
Definition full_system_prompt (context : string) : string :=
  base_system_prompt +:+ nl +:+ nl +:+ "CONTEXT:" +:+ nl +:+ context.

(** The passages that reach the prompt, lines 539-544: those of
    [similarity_search(prompt, k=4)], none without a store and none when
    the search raises. *)
Definition retrieve `{Services} (vector_db : option Index) (prompt : string)
  : list string :=
  match vector_db with
  | Some db =>
      match similarity_search db prompt 4 with
      | Return docs => page_content <$> docs
      | Raise _ => []
      end
  | None => []
  end.

(** The value of [context] after lines 538-544. *)
Definition retrieval_context `{Services} (vector_db : option Index) (prompt : string)
  : string :=
  match vector_db with
  | Some db =>
      match similarity_search db prompt 4 with
      | Return docs => str_join (nl +:+ nl) (page_content <$> docs)
      | Raise _ => ""
      end
  | None => ""
  end.

(** Lines 556-559. *)
Definition gemini_history (ms : list Message) : list GeminiTurn :=
  (λ m, mkGeminiTurn (if decide (role m = "user") then "user" else "model")
                     [content m]) <$> ms.

Inductive outcome : Type :=
| Answered (response_text : string)
| Failed (e : string).

(** One submitted prompt. [now] is the value of
    [str(datetime.datetime.now())]. The user message is appended before
    the [try]; the [except] clause only shows a message. *)
Definition chat_turn `{Services} (vector_db : option Index) (prompt now : string)
    (r : Run) : Run * outcome :=
  let st := state r in
  let h1 := list_append (messages st) (user_message prompt) (memory r) in
  let context := retrieval_context vector_db prompt in
  let history := gemini_history (removelast (deref h1 (messages st))) in
  match send_message (full_system_prompt context) history prompt with
  | Raise e => (mkRun st h1 (files r), Failed e)
  | Return response_text =>
      let h2 := list_append (messages st) (assistant_message response_text) h1 in
      let session_title := get_session_title (deref h2 (messages st)) in
      let stored :=
        dict_set (current_session_id st)
                 (mkHistoryEntry (Some session_title) (messages st) (Some now))
                 (full_history st) in
      let fs := if guest_mode st then files r
                else save_history h2 stored (username st) (files r) in
      (mkRun (mkSessionState (username st) (guest_mode st) stored
                             (current_session_id st) (messages st))
             h2 fs,
       Answered response_text)
  end.

(** ** The vector index, app.py lines 83-124 and create_vector_db.py *)

#[global] Instance result_ret : MRet result := λ A a, Return a.
#[global] Instance result_bind : MBind result := λ A B f m,
  match m with
  | Return a => f a
  | Raise e => Raise e
  end.

(** [TextLoader(name, encoding="utf-8").load()] *)
Definition TextLoader_load `{Services} (name : string) (fs : disk)
  : result (list Document) :=
  match fs !! name with
  | Some (TextFile text) => Return [mkDocument text]
  | _ => Raise ("Error loading " +:+ name)
  end.

(** [vector_db.save_local(name)] *)
Definition save_local `{Services} (vector_db : Index) (name : string) (fs : disk) : disk :=
  <[name := IndexDir vector_db]> fs.

(** [FAISS.load_local(name, embeddings)] *)
Definition load_local `{Services} (name : string) (fs : disk) : result Index :=
  match fs !! name with
  | Some (IndexDir index) => Return index
  | _ => Raise ("Error loading " +:+ name)
  end.

(** Load, split, embed: the steps before [save_local], in the order both
    builders run them. An exception of any step ends the sequence. *)
Definition build_index `{Services} (fs : disk) : result Index :=
  documents ← TextLoader_load KNOWLEDGE_FILE fs;
  texts ← split_documents 1000 200 documents;
  from_documents texts.

(** [create_vector_db]: the files it leaves, and [Raise] for an exception
    that leaves the function. *)
Definition create_vector_db `{Services} (fs : disk) : disk * result () :=
  if negb (exists_ KNOWLEDGE_FILE fs) then (fs, Return ())
  else
    match build_index fs with
    | Return vector_db => (save_local vector_db FAISS_INDEX_PATH fs, Return ())
    | Raise e => (fs, Raise e)
    end.

(** Lines 118-124. *)
Definition load_saved_index `{Services} (fs : disk) : option Index :=
  match load_local FAISS_INDEX_PATH fs with
  | Return vector_db => Some vector_db
  | Raise _ => None
  end.

(** [load_faiss_index]: the store it returns and the files it leaves. *)
Definition load_faiss_index `{Services} (fs : disk) : option Index * disk :=
  if negb (exists_ FAISS_INDEX_PATH fs) then
    if exists_ KNOWLEDGE_FILE fs then
      match build_index fs with
      | Return vector_db =>
          let fs' := save_local vector_db FAISS_INDEX_PATH fs in
          (load_saved_index fs', fs')
      | Raise _ => (None, fs)
      end
    else (None, fs)
  else (load_saved_index fs, fs).

(** What a build may leave behind: either builder leaves the files as they were, or it saves the store
    that [from_documents] returned for all the passages of the corpus. *)
Definition written_whole `{Services} (fs fs' : disk) : Prop :=
  fs' = fs
  ∨ ∃ documents texts vector_db,
      TextLoader_load KNOWLEDGE_FILE fs = Return documents
      ∧ split_documents 1000 200 documents = Return texts
      ∧ from_documents texts = Return vector_db
      ∧ fs' = <[FAISS_INDEX_PATH := IndexDir vector_db]> fs.

(** ** Runs of an authenticated session *)

(** What one rerun of the script can do once the session state exists. *)
Inductive action `{Services} : Type :=
| LoadIndex
| NewChat (fresh_id : string)
| Select (sid : string)
| Delete (sid fresh_id : string)
| Chat (vector_db : option Index) (prompt now : string).

Definition step `{Services} (r : Run) (a : action) : Run :=
  match a with
  | LoadIndex => mkRun (state r) (memory r) (load_faiss_index (files r)).2
  | NewChat fresh_id => new_chat fresh_id r
  | Select sid => select_session sid r
  | Delete sid fresh_id => delete_session sid fresh_id r
  | Chat vector_db prompt now => (chat_turn vector_db prompt now r).1
  end.

Definition run `{Services} (r : Run) (actions : list action) : Run :=
  foldl step r actions.

(** ** The corpus chunker *)

Module Chunker.

(** Modelled from the spec: the passages that
    [RecursiveCharacterTextSplitter(chunk_size, chunk_overlap)] cuts. The
    class belongs to the langchain package and is not part of the
    program's sources, which only fix the two sizes (1000 and 200). The
    spec (4.1) asks for passages of at most [chunk_size] characters, each
    one starting [chunk_overlap] characters before the end of the one
    before it, and for a single passage when the corpus fits into one
    chunk. [fuel] bounds the number of cuts; the length of the corpus is
    enough of it as soon as [chunk_overlap < chunk_size]. *)
Fixpoint chunk_from (fuel chunk_size chunk_overlap : nat) (corpus : list Ascii.ascii)
  : list (list Ascii.ascii) :=
  match fuel with
  | 0 => [corpus]
  | S fuel' =>
      if decide (length corpus ≤ chunk_size)%nat then [corpus]
      else take chunk_size corpus
             :: chunk_from fuel' chunk_size chunk_overlap
                           (drop (chunk_size - chunk_overlap) corpus)
  end.

Definition chunk (chunk_size chunk_overlap : nat) (corpus : list Ascii.ascii)
  : list (list Ascii.ascii) :=
  chunk_from (length corpus) chunk_size chunk_overlap corpus.

End Chunker.

(** ** Stand-ins for the external services

    Used to run the handlers on concrete inputs. *)

(** Every service answers: the store is the list of its passages, a
    search returns the first [k] of them, the model echoes the system
    instruction. *)
Definition echo_services : Services := {|
  Index := list Document;
  split_documents := λ _ _ docs, Return docs;
  from_documents := λ docs, Return docs;
  similarity_search := λ db _ k, Return (take k db);
  send_message := λ system _ prompt, Return ("echo " +:+ prompt);
|}.

(** Every service raises. *)
Definition failing_services : Services := {|
  Index := list Document;
  split_documents := λ _ _ docs, Return docs;
  from_documents := λ _, Raise "embedding quota exceeded";
  similarity_search := λ _ _ _, Raise "embedding quota exceeded";
  send_message := λ _ _ _, Raise "429 Too Many Requests";
|}.

(** The search raises, the model answers. *)
Definition search_down_services : Services := {|
  Index := list Document;
  split_documents := λ _ _ docs, Return docs;
  from_documents := λ docs, Return docs;
  similarity_search := λ _ _ _, Raise "index unavailable";
  send_message := λ _ _ prompt, Return ("echo " +:+ prompt);
|}.

(** The model answers every prompt but ["again"]. *)
Definition flaky_services : Services := {|
  Index := list Document;
  split_documents := λ _ _ docs, Return docs;
  from_documents := λ docs, Return docs;
  similarity_search := λ db _ k, Return (take k db);
  send_message := λ _ _ prompt,
    if decide (prompt = "again") then Raise "429 Too Many Requests"
    else Return ("echo " +:+ prompt);
|}.

(** ** More of the program *)

(** The label of a session in the sidebar, app.py lines 472-474:
    [title[:18] + ".."] for a title of more than 20 characters. *)
Definition display_title (title : string) : string :=
  if decide (20 < String.length title)%nat
  then String.substring 0 18 title +:+ ".."
  else title.

(** No reference dangles: the working list and the list of every stored
    session are objects of the heap. *)
Definition heap_closed `{Services} (r : Run) : Prop :=
  messages (state r) ∈ dom (memory r)
  ∧ Forall (λ kv, entry_messages kv.2 ∈ dom (memory r)) (full_history (state r)).


Module Auth.

(** [users.json]: no file, a JSON object from user names to password
    hashes, or text that [json.load] rejects. The file has a name of its
    own, so it is kept apart from the files of the conversation store. *)
Inductive users_file : Type :=
| NoFile
| UsersJson (users : pydict string)
| Unparsable.

(** [load_users], app.py lines 48-55. *)
Definition load_users (f : users_file) : pydict string :=
  match f with
  | UsersJson users => users
  | NoFile => []
  | Unparsable => []
  end.

(** [save_users], lines 57-59. *)
Definition save_users (users : pydict string) : users_file := UsersJson users.

(** The three flags of [st.session_state] that the login page sets. *)
Record flags : Type := mkFlags {
  authenticated : bool;
  username : option string;
  guest_mode : bool;
}.

Definition signed_out : flags := mkFlags false None false.

Section handlers.

(** [hash_password], lines 45-46: the SHA-256 digest of the password in
    hexadecimal. Its value is left open. *)
Variable hash_password : string → string.

(** The Get Started button, lines 286-297: the flags, the value of the
    cookie [zain_auth_user], and the error shown. *)
Definition login (login_user login_pass : string) (f : users_file)
    (st : flags) (cookie : option string) : flags * option string * option string :=
  let users := load_users f in
  if dict_in login_user users
     && bool_decide (dict_get login_user users = Some (hash_password login_pass))
  then (mkFlags true (Some login_user) false, Some login_user, None)
  else (st, cookie, Some "Invalid username or password").

(** The Create Account button, lines 304-313: the file and the message. *)
Definition register (reg_user reg_pass : string) (f : users_file)
  : users_file * string :=
  let users := load_users f in
  if dict_in reg_user users then (f, "Username already exists!")
  else if bool_decide (reg_user = "") || bool_decide (reg_pass = "")
  then (f, "Please fill in all fields")
  else (save_users (dict_set reg_user (hash_password reg_pass) users),
        "Account created! Switch to Login.").

End handlers.

(** The Continue as Guest button, lines 318-322. *)
Definition continue_as_guest : flags := mkFlags true (Some "Guest") true.

(** The check of the cookie on the first run, lines 138-153. *)
Definition auto_login (cookie_user : option string) (f : users_file) : flags :=
  match cookie_user with
  | None => signed_out
  | Some u =>
      if bool_decide (u = "") then signed_out
      else if dict_in u (load_users f) then mkFlags true (Some u) false
      else signed_out
  end.

End Auth.

(** * Properties *)

(** ** Dicts *)

Section dict.
Context {V : Type}.
Implicit Types (d : pydict V) (k : string) (v : V).

Lemma dict_in_true k d : dict_in k d = true ↔ k ∈ d.*1.
Proof. unfold dict_in. by rewrite bool_decide_eq_true. Qed.

Lemma dict_in_false k d : dict_in k d = false ↔ k ∉ d.*1.
Proof. unfold dict_in. by rewrite bool_decide_eq_false. Qed.

Lemma dict_set_new k v d : k ∉ d.*1 → dict_set k v d = d ++ [(k, v)].
Proof.
  induction d as [|[k' v'] d IH]; simpl; [done|].
  rewrite not_elem_of_cons. intros [Hne Hnot].
  destruct (decide (k = k')) as [->|_]; [done|].
  by rewrite IH.
Qed.

Lemma dict_set_keys k v d : k ∈ d.*1 → (dict_set k v d).*1 = d.*1.
Proof.
  induction d as [|[k' v'] d IH]; cbn [dict_set].
  - by intros ?%elem_of_nil.
  - destruct (decide (k = k')) as [->|Hne]; [done|].
    rewrite !fmap_cons, elem_of_cons. cbn [fst]. intros [?|Hin]; [done|].
    by rewrite IH.
Qed.

Lemma dict_get_set k v d : dict_get k (dict_set k v d) = Some v.
Proof.
  induction d as [|[k' v'] d IH]; simpl.
  - by rewrite decide_True.
  - destruct (decide (k = k')) as [->|Hne]; simpl.
    + by rewrite decide_True.
    + by rewrite decide_False.
Qed.

Lemma dict_get_set_ne k k' v d : k ≠ k' → dict_get k' (dict_set k v d) = dict_get k' d.
Proof.
  intros Hne. induction d as [|[k0 v0] d IH]; simpl.
  - by rewrite decide_False.
  - destruct (decide (k = k0)) as [->|Hne0]; simpl.
    + by rewrite !decide_False.
    + by rewrite IH.
Qed.

Lemma dict_del_keys k d : (dict_del k d).*1 = filter (λ k', k' ≠ k) d.*1.
Proof.
  unfold dict_del. induction d as [|[k' v'] d IH]; [done|].
  rewrite fmap_cons, !filter_cons. cbn [fst].
  destruct (decide (k' ≠ k)); [rewrite fmap_cons; cbn [fst]|]; by rewrite IH.
Qed.

Lemma dict_del_gone k d : k ∉ (dict_del k d).*1.
Proof. rewrite dict_del_keys, list_elem_of_filter. intros [Hk _]. by apply Hk. Qed.

Lemma dict_del_other k k' d : k' ≠ k → k' ∈ (dict_del k d).*1 ↔ k' ∈ d.*1.
Proof. intros Hne. rewrite dict_del_keys, list_elem_of_filter. tauto. Qed.

Lemma dict_del_absent k d : k ∉ d.*1 → dict_del k d = d.
Proof.
  unfold dict_del. induction d as [|[k' v'] d IH]; [done|].
  simpl. rewrite not_elem_of_cons. intros [Hne Hnot].
  rewrite filter_cons. simpl.
  rewrite decide_True by done. by rewrite IH.
Qed.

Lemma dict_set_NoDup k v d : NoDup d.*1 → NoDup (dict_set k v d).*1.
Proof.
  intros Hd. destruct (decide (k ∈ d.*1)) as [Hin|Hnot].
  - by rewrite dict_set_keys.
  - rewrite dict_set_new by done. rewrite fmap_app. simpl.
    apply NoDup_app. split_and!; [done| |apply NoDup_singleton].
    intros x Hx ->%list_elem_of_singleton. done.
Qed.

Lemma dict_del_NoDup k d : NoDup d.*1 → NoDup (dict_del k d).*1.
Proof. rewrite dict_del_keys. apply NoDup_filter. Qed.

End dict.

(** ** Strings *)

Lemma append_length (a b : string) :
  String.length (a +:+ b) = String.length a + String.length b.
Proof. induction a as [|c a IH]; simpl; [done|by rewrite IH]. Qed.


(** [s[:n]] is a prefix of [s], of [n] characters when [s] has that many. *)
Lemma substring_prefix (n : nat) (s : string) :
  ∃ rest, s = String.substring 0 n s +:+ rest
          ∧ String.length (String.substring 0 n s) = n `min` String.length s.
Proof.
  revert s. induction n as [|n IH]; intros [|c s]; simpl.
  - by exists "".
  - by exists (String c s).
  - by exists "".
  - destruct (IH s) as (rest & Hs & Hlen). exists rest.
    split; [|by rewrite Hlen].
    change (String c s = String c (String.substring 0 n s +:+ rest)). by f_equal.
Qed.



(** ** The heap *)

Lemma deref_list_append (l : loc) (m : Message) (h : heap) :
  deref (list_append l m h) l = deref h l ++ [m].
Proof. unfold list_append, deref at 1. by rewrite lookup_insert_eq. Qed.

Lemma deref_list_append_ne (l l' : loc) (m : Message) (h : heap) :
  l' ≠ l → deref (list_append l m h) l' = deref h l'.
Proof. intros Hne. unfold list_append, deref at 1. by rewrite lookup_insert_ne. Qed.

Lemma alloc_fresh (ms : list Message) (h : heap) : (alloc ms h).1 ∉ dom h.
Proof. unfold alloc. simpl. apply is_fresh. Qed.

Lemma deref_alloc (ms : list Message) (h : heap) :
  deref (alloc ms h).2 (alloc ms h).1 = ms.
Proof. unfold alloc, deref. simpl. by rewrite lookup_insert_eq. Qed.

Lemma deref_alloc_old (ms : list Message) (h : heap) (l : loc) :
  l ∈ dom h → deref (alloc ms h).2 l = deref h l.
Proof.
  intros Hl. unfold alloc, deref. simpl.
  rewrite lookup_insert_ne; [done|].
  intros <-. by apply (is_fresh (dom h)).
Qed.

(** ** Session titles *)

Lemma get_session_title_skip (pre rest : list Message) :
  Forall (λ x, role x ≠ "user") pre →
  get_session_title (pre ++ rest) = get_session_title rest.
Proof.
  induction 1 as [|x pre Hx _ IH]; [done|].
  simpl. by rewrite decide_False.
Qed.

Lemma get_session_title_user (m : Message) (rest : list Message) :
  role m = "user" →
  get_session_title (m :: rest) = String.substring 0 30 (content m) +:+ "...".
Proof. intros Hm. simpl. by rewrite decide_True. Qed.

Lemma get_session_title_app (ms more : list Message) :
  Exists (λ m, role m = "user") ms →
  get_session_title (ms ++ more) = get_session_title ms.
Proof.
  induction ms as [|m ms IH]; intros Hex.
  - by apply Exists_nil in Hex.
  - cbn [app get_session_title]. destruct (decide (role m = "user")); [done|].
    apply Exists_cons in Hex as [?|Hex]; [done|]. by apply IH.
Qed.

(** C6. The title of a session is the first 30 characters of its first
    user message (a prefix of it, the whole message when that is shorter)
    followed by ["..."]; it is ["New Chat"] when no message has the user
    role; and appending further messages to a session that
    has a user message leaves the title as it is. The first message
    ["Where is the printer?"] gives ["Where is the printer?..."] whatever
    follows it. *)
Theorem get_session_title_stable (pre post more quiet : list Message) (m : Message) :
  Forall (λ x, role x ≠ "user") pre →
  role m = "user" →
  Forall (λ x, role x ≠ "user") quiet →
  get_session_title (pre ++ m :: post) = String.substring 0 30 (content m) +:+ "..."
  ∧ (∃ rest, content m = String.substring 0 30 (content m) +:+ rest)
  ∧ String.length (String.substring 0 30 (content m)) = 30 `min` String.length (content m)
  ∧ get_session_title ((pre ++ m :: post) ++ more) = get_session_title (pre ++ m :: post)
  ∧ get_session_title quiet = "New Chat"
  ∧ get_session_title (user_message "Where is the printer?" :: more)
    = "Where is the printer?...".
Proof.
  intros Hpre Hm Hquiet.
  destruct (substring_prefix 30 (content m)) as (rest & Hrest & Hlen).
  split_and!.
  - by rewrite get_session_title_skip, get_session_title_user.
  - by exists rest.
  - done.
  - apply get_session_title_app, Exists_app. right. by apply Exists_cons_hd.
  - rewrite <- (app_nil_r quiet). by rewrite get_session_title_skip.
  - done.
Qed.

Lemma get_session_title_stable_witness :
  let pre := [assistant_message "Hello"] in
  let m := user_message "Please tell me where the office printer is located" in
  let post := [assistant_message "On floor 2."] in
  let more := [user_message "And the kitchen?"; assistant_message "Floor 2 as well."] in
  Forall (λ x, role x ≠ "user") pre
  ∧ role m = "user"
  ∧ get_session_title (pre ++ m :: post) = "Please tell me where the offic..."
  ∧ get_session_title ((pre ++ m :: post) ++ more) = "Please tell me where the offic..."
  ∧ get_session_title pre = "New Chat".
Proof.
  intros pre m post more.
  assert (Hpre : Forall (λ x, role x ≠ "user") pre) by (repeat constructor; discriminate).
  assert (Hm : role m = "user") by reflexivity.
  destruct (get_session_title_stable pre post more pre m Hpre Hm Hpre)
    as (H1 & _ & _ & H2 & H3 & _).
  split_and!; [exact Hpre|exact Hm|exact H1| |exact H3].
  rewrite H2. exact H1.
Defined.

(** ** The order of the sidebar *)

Lemma list_sessions_snoc (history : pydict HistoryEntry) (sid : string) (data : HistoryEntry) :
  list_sessions (history ++ [(sid, data)])
  = mkSessionItem sid (default "Untitled" (entry_title data))
                  (default "" (entry_timestamp data)) :: list_sessions history.
Proof. unfold list_sessions, sessions_list. by rewrite fmap_app, reverse_app. Qed.

Lemma list_sessions_ids (history : pydict HistoryEntry) :
  item_id <$> list_sessions history = reverse history.*1.
Proof.
  unfold list_sessions, sessions_list.
  rewrite fmap_reverse, <- list_fmap_compose. done.
Qed.

Lemma list_sessions_set_old (history : pydict HistoryEntry) (sid : string)
    (data : HistoryEntry) :
  dict_in sid history = true →
  item_id <$> list_sessions (dict_set sid data history) = item_id <$> list_sessions history.
Proof. intros Hin%dict_in_true. by rewrite !list_sessions_ids, dict_set_keys. Qed.

Lemma list_sessions_set_new (history : pydict HistoryEntry) (sid : string)
    (data : HistoryEntry) :
  dict_in sid history = false →
  list_sessions (dict_set sid data history)
  = mkSessionItem sid (default "Untitled" (entry_title data))
                  (default "" (entry_timestamp data)) :: list_sessions history.
Proof. intros Hin%dict_in_false. by rewrite dict_set_new, list_sessions_snoc. Qed.

(** C2, as the program has it. An upsert stores the new data under the
    id. The sidebar lists the sessions in reverse insertion order: an
    upsert under a new id puts that session first, an upsert under an id
    that is already stored leaves the listed order as it was. *)
Theorem list_sessions_insertion_order (history : pydict HistoryEntry)
    (sid : string) (data : HistoryEntry) :
  get sid (dict_set sid data history) = Some data
  ∧ if dict_in sid history
    then item_id <$> list_sessions (dict_set sid data history)
         = item_id <$> list_sessions history
    else list_sessions (dict_set sid data history)
         = mkSessionItem sid (default "Untitled" (entry_title data))
                         (default "" (entry_timestamp data))
             :: list_sessions history.
Proof.
  split; [apply dict_get_set|].
  destruct (dict_in sid history) eqn:Hin.
  - by apply list_sessions_set_old.
  - by apply list_sessions_set_new.
Qed.

(** C2 as stated fails: two sessions are created, then the older one gets
    a further turn. It is the session mutated last (timestamp ["t3"]), and
    the sidebar still lists it after the other one. *)
Lemma list_sessions_recency_counterexample :
  let r0 := @init_session echo_services (Some "alice") false "id1" ∅ ∅ in
  let r1 := (@chat_turn echo_services None "first" "t1" r0).1 in
  let r2 := (@chat_turn echo_services None "second" "t2"
               (@new_chat echo_services "id2" r1)).1 in
  let r3 := (@chat_turn echo_services None "third" "t3"
               (@select_session echo_services "id1" r2)).1 in
  item_id <$> list_sessions (full_history (state r3)) = ["id2"; "id1"]
  ∧ item_timestamp <$> list_sessions (full_history (state r3)) = ["t2"; "t3"]
  ∧ head (item_id <$> list_sessions (full_history (state r3))) ≠ Some "id1".
Proof. vm_compute. split_and!; [reflexivity|reflexivity|discriminate]. Qed.


(** ** The chat turn *)

Lemma append_assoc (a b c : string) : (a +:+ b) +:+ c = a +:+ b +:+ c.
Proof.
  induction a as [|x a IH]; [done|].
  change (String x ((a +:+ b) +:+ c) = String x (a +:+ b +:+ c)).
  by f_equal.
Qed.

Lemma append_empty_r (a : string) : a +:+ "" = a.
Proof.
  induction a as [|x a IH]; [done|].
  change (String x (a +:+ "") = String x a).
  by f_equal.
Qed.

Lemma full_system_prompt_preamble (context : string) :
  full_system_prompt context = preamble +:+ context.
Proof. unfold full_system_prompt, preamble. by rewrite !append_assoc. Qed.

Lemma retrieval_context_retrieve `{Services} (vector_db : option Index) (prompt : string) :
  retrieval_context vector_db prompt = str_join (nl +:+ nl) (retrieve vector_db prompt).
Proof.
  unfold retrieval_context, retrieve.
  destruct vector_db as [db|]; [|done].
  by destruct (similarity_search db prompt 4).
Qed.

(** The history handed to the model is built from the messages before
    the new prompt. *)
Lemma chat_turn_history `{Services} (prompt : string) (r : Run) :
  removelast (deref (list_append (messages (state r)) (user_message prompt) (memory r))
                    (messages (state r)))
  = deref (memory r) (messages (state r)).
Proof. by rewrite deref_list_append, removelast_last. Qed.

(** The outcome of a turn is the outcome of the completion call. *)
Lemma chat_turn_outcome `{Services} (vector_db : option Index) (prompt now : string) (r : Run) :
  (chat_turn vector_db prompt now r).2
  = match send_message (full_system_prompt (retrieval_context vector_db prompt))
                       (gemini_history (deref (memory r) (messages (state r)))) prompt with
    | Return response_text => Answered response_text
    | Raise e => Failed e
    end.
Proof.
  unfold chat_turn. rewrite chat_turn_history.
  by destruct (send_message _ _ _).
Qed.

(** C1, as the program has it. When the completion call raises, the turn
    makes no upsert and writes no file: the session state (the history
    dict with its titles, timestamps and list references, the current
    session id) and the files are those from before the turn. The user
    message that was appended before the call stays at the end of the
    working message list; no other list object changes. *)
Theorem failed_turn_keeps_store `{Services} (vector_db : option Index)
    (prompt now e : string) (r : Run) :
  (chat_turn vector_db prompt now r).2 = Failed e →
  files (chat_turn vector_db prompt now r).1 = files r
  ∧ state (chat_turn vector_db prompt now r).1 = state r
  ∧ deref (memory (chat_turn vector_db prompt now r).1) (messages (state r))
    = deref (memory r) (messages (state r)) ++ [user_message prompt]
  ∧ ∀ l, l ≠ messages (state r) →
      deref (memory (chat_turn vector_db prompt now r).1) l = deref (memory r) l.
Proof.
  unfold chat_turn. destruct (send_message _ _ _) as [text|e']; [discriminate|].
  intros _. cbn [fst state memory files]. split_and!; [done|done| |].
  - apply deref_list_append.
  - intros l Hl. by apply deref_list_append_ne.
Qed.

Lemma failed_turn_keeps_store_witness :
  let r0 := @init_session failing_services (Some "alice") false "id1" ∅ ∅ in
  let t := @chat_turn failing_services None "hello" "t1" r0 in
  t.2 = Failed "429 Too Many Requests"
  ∧ files t.1 = files r0
  ∧ state t.1 = state r0
  ∧ deref (memory t.1) (messages (state r0))
    = deref (memory r0) (messages (state r0)) ++ [user_message "hello"].
Proof.
  intros r0 t.
  assert (Hfail : t.2 = Failed "429 Too Many Requests") by reflexivity.
  destruct (@failed_turn_keeps_store failing_services None "hello" "t1" _ r0 Hfail)
    as (H1 & H2 & H3 & _).
  split_and!; [exact Hfail|exact H1|exact H2|exact H3].
Defined.

(** C1 as stated fails: the completion call raises on the first prompt of
    a new session; the working message list was empty before the turn and
    holds the user message after it. *)
Lemma failed_turn_rollback_counterexample :
  let r0 := @init_session failing_services (Some "alice") false "id1" ∅ ∅ in
  let t := @chat_turn failing_services None "hello" "t1" r0 in
  t.2 = Failed "429 Too Many Requests"
  ∧ deref (memory r0) (messages (state r0)) = []
  ∧ deref (memory t.1) (messages (state t.1)) = [user_message "hello"]
  ∧ deref (memory t.1) (messages (state t.1)) ≠ deref (memory r0) (messages (state r0)).
Proof. vm_compute. split_and!; [reflexivity|reflexivity|reflexivity|discriminate]. Qed.

(** The stored session shares its list object with the working list, so
    the message of a failed turn is part of the stored session from then
    on, and the next write of the history file (here the delete of another
    session) saves it. *)
Lemma failed_turn_message_saved_later :
  let r0 := @init_session flaky_services (Some "alice") false "id1" ∅ ∅ in
  let r1 := (@chat_turn flaky_services None "first" "t1" r0).1 in
  let r2 := (@chat_turn flaky_services None "second" "t2"
               (@new_chat flaky_services "id2" r1)).1 in
  let t := @chat_turn flaky_services None "again" "t3"
             (@select_session flaky_services "id1" r2) in
  let r4 := @delete_session flaky_services "id2" "id3" t.1 in
  t.2 = Failed "429 Too Many Requests"
  ∧ files t.1 = files r2
  ∧ files r4 !! history_filename "alice"
    = Some (JsonFile
        [("id1", mkJsonEntry (Some "first...")
                   [user_message "first"; assistant_message "echo first";
                    user_message "again"]
                   (Some "t1"))]).
Proof. vm_compute. split_and!; reflexivity. Qed.

(** C7. When the search raises, whatever the store, no passage is
    retrieved and the context is empty; the same holds without a store.
    The failure does not reach the turn: its outcome is that of the
    completion call on the preamble alone. *)
Theorem retrieve_degrades `{Services} (vector_db : option Index)
    (prompt now : string) (r : Run) :
  (∀ db, ∃ e, similarity_search db prompt 4 = Raise e) →
  retrieve vector_db prompt = []
  ∧ retrieval_context vector_db prompt = ""
  ∧ retrieve None prompt = []
  ∧ (chat_turn vector_db prompt now r).2
    = match send_message (preamble +:+ "")
                         (gemini_history (deref (memory r) (messages (state r)))) prompt with
      | Return response_text => Answered response_text
      | Raise e => Failed e
      end.
Proof.
  intros Hsearch.
  assert (Hnone : retrieve vector_db prompt = []).
  { unfold retrieve. destruct vector_db as [db|]; [|done].
    destruct (Hsearch db) as [e ->]. done. }
  assert (Hctx : retrieval_context vector_db prompt = "").
  { by rewrite retrieval_context_retrieve, Hnone. }
  split_and!; [done|done|done|].
  by rewrite chat_turn_outcome, Hctx, full_system_prompt_preamble.
Qed.

Lemma retrieve_degrades_witness :
  let db : @Index search_down_services := [mkDocument "The printer is on floor 2."] in
  let r0 := @init_session search_down_services (Some "alice") false "id1" ∅ ∅ in
  (∀ d, ∃ e, @similarity_search search_down_services d "Where is the printer?" 4 = Raise e)
  ∧ @retrieve search_down_services (Some db) "Where is the printer?" = []
  ∧ (@chat_turn search_down_services (Some db) "Where is the printer?" "t1" r0).2
    = Answered "echo Where is the printer?".
Proof.
  intros db r0.
  assert (Hdown : ∀ d, ∃ e,
    @similarity_search search_down_services d "Where is the printer?" 4 = Raise e)
    by (intros d; eexists; reflexivity).
  destruct (@retrieve_degrades search_down_services (Some db)
              "Where is the printer?" "t1" r0 Hdown) as (H1 & _ & _ & H4).
  split_and!; [exact Hdown|exact H1|].
  rewrite H4. reflexivity.
Defined.

(** A turn that the completion service answers: both messages are on the
    working list, the session is stored under the current id with the
    title of that list, and the outcome carries the answer. *)
Lemma answered_turn `{Services} (vector_db : option Index)
    (prompt now response_text : string) (r : Run) :
  send_message (full_system_prompt (retrieval_context vector_db prompt))
               (gemini_history (deref (memory r) (messages (state r)))) prompt
  = Return response_text →
  let t := chat_turn vector_db prompt now r in
  let after := deref (memory r) (messages (state r))
               ++ [user_message prompt; assistant_message response_text] in
  t.2 = Answered response_text
  ∧ deref (memory t.1) (messages (state r)) = after
  ∧ get (current_session_id (state r)) (full_history (state t.1))
    = Some (mkHistoryEntry (Some (get_session_title after)) (messages (state r)) (Some now)).
Proof.
  intros Hsend t after. subst t. unfold chat_turn.
  rewrite chat_turn_history, Hsend. cbn [fst snd state memory full_history].
  assert (Hafter : deref (list_append (messages (state r)) (assistant_message response_text)
                     (list_append (messages (state r)) (user_message prompt) (memory r)))
                     (messages (state r)) = after).
  { rewrite !deref_list_append. subst after. by rewrite <- app_assoc. }
  split_and!; [done|done|].
  unfold get. by rewrite dict_get_set, Hafter.
Qed.




(** ** The vector index *)

Lemma exists_false `{Services} (name : string) (fs : disk) :
  fs !! name = None → exists_ name fs = false.
Proof.
  intros Hnone. unfold exists_. apply bool_decide_eq_false.
  rewrite Hnone. by intros [? ?].
Qed.

Lemma load_faiss_index_absent `{Services} (fs : disk) :
  fs !! KNOWLEDGE_FILE = None → fs !! FAISS_INDEX_PATH = None →
  load_faiss_index fs = (None, fs).
Proof.
  intros Hk Hi. unfold load_faiss_index.
  by rewrite (exists_false _ _ Hi), (exists_false _ _ Hk).
Qed.

(** C8. With no knowledge file and no saved index, [load_faiss_index]
    returns no store and writes nothing; no passage is retrieved, the
    context is the empty string, and the system instruction is the
    preamble followed by that empty context. The turn succeeds as soon as
    the completion service answers that request: both messages are kept
    and the session is stored. *)
Theorem empty_index_turn `{Services} (prompt now response_text : string) (r : Run) :
  files r !! KNOWLEDGE_FILE = None →
  files r !! FAISS_INDEX_PATH = None →
  send_message (preamble +:+ "")
               (gemini_history (deref (memory r) (messages (state r)))) prompt
  = Return response_text →
  let vector_db := (load_faiss_index (files r)).1 in
  let t := chat_turn vector_db prompt now r in
  vector_db = None
  ∧ (load_faiss_index (files r)).2 = files r
  ∧ retrieve vector_db prompt = []
  ∧ retrieval_context vector_db prompt = ""
  ∧ full_system_prompt (retrieval_context vector_db prompt) = preamble +:+ ""
  ∧ t.2 = Answered response_text
  ∧ deref (memory t.1) (messages (state r))
    = deref (memory r) (messages (state r))
      ++ [user_message prompt; assistant_message response_text]
  ∧ is_Some (get (current_session_id (state r)) (full_history (state t.1))).
Proof.
  intros Hk Hi Hsend vector_db t. subst t vector_db.
  rewrite (load_faiss_index_absent _ Hk Hi). cbn [fst snd].
  assert (Hprompt : full_system_prompt (retrieval_context None prompt) = preamble +:+ "")
    by apply full_system_prompt_preamble.
  rewrite <- Hprompt in Hsend.
  destruct (answered_turn None prompt now response_text r Hsend) as (H1 & H2 & H3).
  split_and!; [done|done|done|done|done|done|done|].
  rewrite H3. by eexists.
Qed.

Lemma empty_index_turn_witness :
  let r0 := @init_session echo_services (Some "alice") false "id1" ∅ ∅ in
  let t := @chat_turn echo_services (@load_faiss_index echo_services (files r0)).1
             "Where is the printer?" "t1" r0 in
  files r0 !! KNOWLEDGE_FILE = None
  ∧ files r0 !! FAISS_INDEX_PATH = None
  ∧ t.2 = Answered "echo Where is the printer?"
  ∧ deref (memory t.1) (messages (state r0))
    = [user_message "Where is the printer?";
       assistant_message "echo Where is the printer?"].
Proof.
  intros r0 t.
  assert (Hk : files r0 !! KNOWLEDGE_FILE = None) by reflexivity.
  assert (Hi : files r0 !! FAISS_INDEX_PATH = None) by reflexivity.
  assert (Hsend : @send_message echo_services (preamble +:+ "")
            (gemini_history (deref (memory r0) (messages (state r0))))
            "Where is the printer?" = Return "echo Where is the printer?")
    by reflexivity.
  destruct (@empty_index_turn echo_services "Where is the printer?" "t1"
              "echo Where is the printer?" r0 Hk Hi Hsend)
    as (_ & _ & _ & _ & _ & H6 & H7 & _).
  split_and!; [exact Hk|exact Hi|exact H6|exact H7].
Defined.

Lemma build_index_Return `{Services} (fs : disk) (vector_db : Index) :
  build_index fs = Return vector_db →
  ∃ documents texts,
    TextLoader_load KNOWLEDGE_FILE fs = Return documents
    ∧ split_documents 1000 200 documents = Return texts
    ∧ from_documents texts = Return vector_db.
Proof.
  unfold build_index, mbind, result_bind.
  destruct (TextLoader_load KNOWLEDGE_FILE fs) as [documents|]; [|done].
  destruct (split_documents 1000 200 documents) as [texts|] eqn:Hs; [|done].
  intros Hdb. exists documents, texts. by split_and!.
Qed.

Lemma build_index_embedding_down `{Services} (fs : disk) :
  (∀ texts, ∃ e, from_documents texts = Raise e) →
  ∃ e, build_index fs = Raise e.
Proof.
  intros Hdown. unfold build_index, mbind, result_bind.
  destruct (TextLoader_load KNOWLEDGE_FILE fs) as [documents|e]; [|by exists e].
  destruct (split_documents 1000 200 documents) as [texts|e]; [|by exists e].
  apply Hdown.
Qed.

Lemma create_vector_db_whole `{Services} (fs : disk) :
  written_whole fs (create_vector_db fs).1.
Proof.
  unfold create_vector_db.
  destruct (negb (exists_ KNOWLEDGE_FILE fs)); [by left|].
  destruct (build_index fs) as [vector_db|e] eqn:Hb; [|by left].
  destruct (build_index_Return _ _ Hb) as (documents & texts & ? & ? & ?).
  right. exists documents, texts, vector_db. by split_and!.
Qed.

Lemma load_faiss_index_whole `{Services} (fs : disk) :
  written_whole fs (load_faiss_index fs).2.
Proof.
  unfold load_faiss_index.
  destruct (negb (exists_ FAISS_INDEX_PATH fs)); [|by left].
  destruct (exists_ KNOWLEDGE_FILE fs); [|by left].
  destruct (build_index fs) as [vector_db|e] eqn:Hb; [|by left].
  destruct (build_index_Return _ _ Hb) as (documents & texts & ? & ? & ?).
  right. exists documents, texts, vector_db. by split_and!.
Qed.

(** C4. When the embedding of the passages raises, both builders leave
    every file as it was, a saved index included: [create_vector_db] ends
    with the exception whenever the knowledge file exists, and
    [load_faiss_index] returns no store when none was saved before. In
    every case what a builder writes is the store built from all the
    passages, or nothing. *)
Theorem index_build_all_or_nothing `{Services} (fs : disk) :
  (∀ texts, ∃ e, from_documents texts = Raise e) →
  (create_vector_db fs).1 = fs
  ∧ (load_faiss_index fs).2 = fs
  ∧ (exists_ KNOWLEDGE_FILE fs = true → ∃ e, (create_vector_db fs).2 = Raise e)
  ∧ (fs !! FAISS_INDEX_PATH = None → (load_faiss_index fs).1 = None)
  ∧ written_whole fs (create_vector_db fs).1
  ∧ written_whole fs (load_faiss_index fs).2.
Proof.
  intros Hdown. destruct (build_index_embedding_down fs Hdown) as [e He].
  split_and!.
  - unfold create_vector_db. rewrite He. by destruct (negb _).
  - unfold load_faiss_index. rewrite He.
    destruct (negb _); [|done]. by destruct (exists_ KNOWLEDGE_FILE fs).
  - intros Hk. unfold create_vector_db. rewrite Hk, He. by exists e.
  - intros Hi. unfold load_faiss_index.
    rewrite (exists_false _ _ Hi), He. cbn [negb].
    by destruct (exists_ KNOWLEDGE_FILE fs).
  - apply create_vector_db_whole.
  - apply load_faiss_index_whole.
Qed.

Lemma index_build_all_or_nothing_witness :
  let old : @Index failing_services := [mkDocument "old passage"] in
  let fs : gmap string (@file failing_services) :=
    <[FAISS_INDEX_PATH := IndexDir old]>
      (<[KNOWLEDGE_FILE := TextFile "The printer is on floor 2."]> ∅) in
  (∀ texts, ∃ e, @from_documents failing_services texts = Raise e)
  ∧ (@create_vector_db failing_services fs).1 = fs
  ∧ (@create_vector_db failing_services fs).1 !! FAISS_INDEX_PATH = Some (IndexDir old)
  ∧ (@load_faiss_index failing_services fs).2 = fs.
Proof.
  intros old fs.
  assert (Hdown : ∀ texts, ∃ e, @from_documents failing_services texts = Raise e)
    by (intros texts; eexists; reflexivity).
  destruct (@index_build_all_or_nothing failing_services fs Hdown)
    as (H1 & H2 & _).
  split_and!; [exact Hdown|exact H1| |exact H2].
  rewrite H1. reflexivity.
Defined.

(** ** Deleting a session *)

Lemma dict_get_None {V : Type} (k : string) (d : pydict V) :
  dict_get k d = None ↔ k ∉ d.*1.
Proof.
  induction d as [|[k' v'] d IH]; cbn [dict_get].
  - split; [intros _; apply not_elem_of_nil|done].
  - rewrite fmap_cons, not_elem_of_cons. cbn [fst].
    destruct (decide (k = k')) as [->|Hne]; [|tauto].
    split; [done|]. by intros [? _].
Qed.

Lemma list_sessions_elem (sid : string) (history : pydict HistoryEntry) :
  sid ∈ (item_id <$> list_sessions history) ↔ sid ∈ history.*1.
Proof. by rewrite list_sessions_ids, elem_of_reverse. Qed.

Lemma delete_session_absent `{Services} (sid fresh_id : string) (r : Run) :
  dict_in sid (full_history (state r)) = false → delete_session sid fresh_id r = r.
Proof. intros Hin. unfold delete_session. by rewrite Hin. Qed.

Lemma delete_session_history `{Services} (sid fresh_id : string) (r : Run) :
  full_history (state (delete_session sid fresh_id r))
  = dict_del sid (full_history (state r)).
Proof.
  unfold delete_session.
  destruct (dict_in sid (full_history (state r))) eqn:Hin.
  - destruct (decide _); [|done]. by destruct (alloc [] (memory r)).
  - apply dict_in_false in Hin. by rewrite dict_del_absent.
Qed.

(** C9. Deleting an id that the store does not hold changes nothing, so
    a second delete of the same id is a no-op; after a delete the id is
    neither listed nor found. The handler is a total function: no step of
    it raises. *)
Theorem delete_session_idempotent `{Services} (sid fresh_id fresh_id' : string) (r : Run) :
  (dict_in sid (full_history (state r)) = false → delete_session sid fresh_id r = r)
  ∧ delete_session sid fresh_id' (delete_session sid fresh_id r)
    = delete_session sid fresh_id r
  ∧ (sid ∉ item_id <$> list_sessions (full_history (state (delete_session sid fresh_id r))))
  ∧ get sid (full_history (state (delete_session sid fresh_id r))) = None.
Proof.
  assert (Hgone : sid ∉ (full_history (state (delete_session sid fresh_id r))).*1).
  { rewrite delete_session_history. apply dict_del_gone. }
  split_and!.
  - apply delete_session_absent.
  - apply delete_session_absent. by apply dict_in_false.
  - by rewrite list_sessions_elem.
  - by apply dict_get_None.
Qed.

Lemma delete_session_idempotent_witness :
  let r0 := @init_session echo_services (Some "alice") false "id1" ∅ ∅ in
  let r1 := (@chat_turn echo_services None "first" "t1" r0).1 in
  let r2 := (@chat_turn echo_services None "second" "t2"
               (@new_chat echo_services "id2" r1)).1 in
  dict_in "id9" (full_history (state r2)) = false
  ∧ @delete_session echo_services "id9" "id3" r2 = r2
  ∧ item_id <$> list_sessions (full_history (state r2)) = ["id2"; "id1"]
  ∧ "id1" ∉ (item_id <$> list_sessions
               (full_history (state (@delete_session echo_services "id1" "id3" r2)))).
Proof.
  intros r0 r1 r2.
  assert (Habsent : dict_in "id9" (full_history (state r2)) = false) by reflexivity.
  destruct (@delete_session_idempotent echo_services "id9" "id3" "id4" r2)
    as (H1 & _ & _ & _).
  destruct (@delete_session_idempotent echo_services "id1" "id3" "id4" r2)
    as (_ & _ & H3 & _).
  split_and!; [exact Habsent|exact (H1 Habsent)|reflexivity|exact H3].
Defined.



(** ** Isolation of identities *)


Lemma load_faiss_index_other `{Services} (name : string) (fs : disk) :
  name ≠ FAISS_INDEX_PATH → (load_faiss_index fs).2 !! name = fs !! name.
Proof.
  intros Hne. destruct (load_faiss_index_whole fs) as [->|(? & ? & db & _ & _ & _ & ->)].
  - done.
  - by rewrite lookup_insert_ne.
Qed.

Lemma step_username `{Services} (r : Run) (a : action) :
  username (state (step r a)) = username (state r).
Proof.
  destruct a as [|fresh_id|sid|sid fresh_id|vector_db prompt now]; cbn [step].
  - done.
  - unfold new_chat. by destruct (alloc [] (memory r)).
  - unfold select_session. by destruct (dict_get sid _).
  - unfold delete_session. destruct (dict_in sid _); [|done].
    destruct (decide _); [|done]. by destruct (alloc [] (memory r)).
  - unfold chat_turn. by destruct (send_message _ _ _).
Qed.

Lemma json_load_keys (j : pydict JsonEntry) (h : heap) : (json_load j h).1.*1 = j.*1.
Proof.
  revert h. induction j as [|[sid e] j IH]; intros h; [done|].
  cbn [json_load]. destruct (alloc (json_messages e) h) as [l h1].
  specialize (IH h1). destruct (json_load j h1) as [d h2].
  cbn [fst] in *. rewrite !fmap_cons. cbn [fst]. by rewrite IH.
Qed.

(** The keys of the history dict stay pairwise distinct. *)
Lemma step_NoDup `{Services} (r : Run) (a : action) :
  NoDup (full_history (state r)).*1 → NoDup (full_history (state (step r a))).*1.
Proof.
  intros Hd.
  destruct a as [|fresh_id|sid|sid fresh_id|vector_db prompt now]; cbn [step].
  - done.
  - unfold new_chat. by destruct (alloc [] (memory r)).
  - unfold select_session. by destruct (dict_get sid _).
  - rewrite delete_session_history. by apply dict_del_NoDup.
  - unfold chat_turn. destruct (send_message _ _ _); [|done].
    cbn [fst state full_history]. by apply dict_set_NoDup.
Qed.






(** ** The chunker *)

Section chunker.
Import Chunker.
Variables chunk_size chunk_overlap : nat.
Hypothesis overlap_lt : (chunk_overlap < chunk_size)%nat.

Local Abbreviation stride := (chunk_size - chunk_overlap)%nat.

(** The length of the corpus is enough fuel: more of it changes nothing. *)
Lemma chunk_from_fuel (fuel fuel' : nat) (corpus : list Ascii.ascii) :
  (length corpus ≤ fuel)%nat → (length corpus ≤ fuel')%nat →
  chunk_from fuel chunk_size chunk_overlap corpus
  = chunk_from fuel' chunk_size chunk_overlap corpus.
Proof.
  revert fuel' corpus.
  induction fuel as [|fuel IH]; intros [|fuel'] corpus Hf Hf'; cbn [chunk_from].
  - done.
  - rewrite decide_True by lia. done.
  - rewrite decide_True by lia. done.
  - destruct (decide (length corpus ≤ chunk_size)%nat) as [|Hlong]; [done|].
    f_equal. apply IH; rewrite length_drop; lia.
Qed.

(** Passage [i] is the window of [chunk_size] characters that starts at
    character [i * stride]; a passage follows it only when the corpus
    goes beyond that window. *)
Lemma chunk_from_lookup (fuel : nat) (corpus : list Ascii.ascii) (i : nat)
    (p : list Ascii.ascii) :
  (length corpus ≤ fuel)%nat →
  chunk_from fuel chunk_size chunk_overlap corpus !! i = Some p →
  p = take chunk_size (drop (i * stride) corpus)
  ∧ (∀ j, i = S j → (chunk_size < length (drop (j * stride) corpus))%nat).
Proof.
  revert corpus i p.
  induction fuel as [|fuel IH]; intros corpus i p Hf; cbn [chunk_from].
  - destruct i as [|i]; [|done]. intros [= <-].
    split; [|done]. rewrite Nat.mul_0_l, drop_0. by rewrite take_ge by lia.
  - destruct (decide (length corpus ≤ chunk_size)%nat) as [Hshort|Hlong].
    + destruct i as [|i]; [|done]. intros [= <-].
      split; [|done]. rewrite Nat.mul_0_l, drop_0. by rewrite take_ge.
    + destruct i as [|i].
      * intros [= <-]. split; [|done]. by rewrite Nat.mul_0_l, drop_0.
      * cbn [lookup list_lookup]. intros Hp.
        apply IH in Hp as [-> Hnext]; [|rewrite length_drop; lia].
        split.
        -- by rewrite drop_drop.
        -- intros j [= <-]. destruct i as [|i].
           ++ rewrite Nat.mul_0_l, drop_0. lia.
           ++ specialize (Hnext i eq_refl). rewrite drop_drop in Hnext.
              replace (S i * stride)%nat with (stride + i * stride)%nat by lia.
              done.
Qed.

End chunker.

(** C3. For [chunk_overlap < chunk_size]: every passage has at most
    [chunk_size] characters; passage [i] is the window of the corpus
    that starts at character [i * (chunk_size - chunk_overlap)]; of two
    consecutive passages the first has [chunk_size] characters and its
    last [chunk_overlap] characters are the first [chunk_overlap]
    characters of the second; a corpus of at most [chunk_size]
    characters gives the one passage that is the corpus. The chunker is
    a function, so equal inputs give equal passages. *)
Theorem chunk_overlap_exact (chunk_size chunk_overlap : nat) (corpus : list Ascii.ascii) :
  (chunk_overlap < chunk_size)%nat →
  let passages := Chunker.chunk chunk_size chunk_overlap corpus in
  Forall (λ p, (length p ≤ chunk_size)%nat) passages
  ∧ (∀ i p, passages !! i = Some p →
       p = take chunk_size (drop (i * (chunk_size - chunk_overlap)) corpus))
  ∧ (∀ i p q, passages !! i = Some p → passages !! S i = Some q →
       length p = chunk_size
       ∧ length (take chunk_overlap q) = chunk_overlap
       ∧ drop (length p - chunk_overlap) p = take chunk_overlap q)
  ∧ ((length corpus ≤ chunk_size)%nat → passages = [corpus]).
Proof.
  intros Hlt passages. subst passages. unfold Chunker.chunk.
  set (stride := (chunk_size - chunk_overlap)%nat).
  assert (Hwin : ∀ i p,
    Chunker.chunk_from (length corpus) chunk_size chunk_overlap corpus !! i = Some p →
    p = take chunk_size (drop (i * stride) corpus)
    ∧ (∀ j, i = S j → (chunk_size < length (drop (j * stride) corpus))%nat)).
  { intros i p. by apply chunk_from_lookup. }
  split_and!.
  - apply Forall_lookup. intros i p [-> _]%Hwin. rewrite length_take. lia.
  - intros i p Hp. by apply Hwin.
  - intros i p q [-> _]%Hwin [-> Hnext]%Hwin.
    specialize (Hnext i eq_refl).
    assert (Hp : length (take chunk_size (drop (i * stride) corpus)) = chunk_size).
    { rewrite length_take. lia. }
    rewrite Hp. split_and!; [done| |].
    + rewrite length_take, length_take, length_drop.
      rewrite length_drop in Hnext. subst stride. lia.
    + rewrite take_take.
      replace (chunk_overlap `min` chunk_size)%nat with chunk_overlap by lia.
      replace (S i * stride)%nat with (i * stride + stride)%nat by lia.
      rewrite <- drop_drop. generalize (drop (i * stride) corpus) as window.
      intros window. rewrite (take_drop_commute window). subst stride.
      by replace (chunk_size - chunk_overlap + chunk_overlap)%nat with chunk_size by lia.
  - intros Hshort. destruct (length corpus) eqn:Hlen; cbn [Chunker.chunk_from]; [done|].
    by rewrite decide_True by lia.
Qed.

Lemma chunk_overlap_exact_witness :
  let corpus := String.list_ascii_of_string "The printer is on floor 2." in
  let passages := Chunker.chunk 10 4 corpus in
  (4 < 10)%nat
  ∧ String.string_of_list_ascii <$> passages
    = ["The printe"; "inter is o"; "is on floo"; "floor 2."]
  ∧ Forall (λ p, (length p ≤ 10)%nat) passages
  ∧ (∀ i p q, passages !! i = Some p → passages !! S i = Some q →
       drop (length p - 4) p = take 4 q).
Proof.
  intros corpus passages.
  assert (Hlt : (4 < 10)%nat) by lia.
  destruct (chunk_overlap_exact 10 4 corpus Hlt) as (H1 & _ & H3 & _).
  split_and!; [exact Hlt|reflexivity|exact H1|].
  intros i p q Hp Hq. exact (proj2 (proj2 (H3 i p q Hp Hq))).
Defined.

(** * Further properties of the program *)

(** ** The history file *)


Lemma json_dump_ext (h h' : heap) (history : pydict HistoryEntry) :
  Forall (λ kv, deref h' (entry_messages kv.2) = deref h (entry_messages kv.2)) history →
  json_dump h' history = json_dump h history.
Proof.
  induction 1 as [|[sid data] history Hd _ IH]; [done|].
  unfold json_dump in *. rewrite !fmap_cons, IH. cbn in *. by rewrite Hd.
Qed.

Lemma alloc_old (ms : list Message) (h : heap) (l : loc) :
  l ∈ dom h → (alloc ms h).2 !! l = h !! l.
Proof.
  intros Hl. unfold alloc. cbn [snd].
  apply lookup_insert_ne. intros <-. by apply (is_fresh (dom h)).
Qed.

Lemma alloc_dom (ms : list Message) (h : heap) :
  dom (alloc ms h).2 = {[ (alloc ms h).1 ]} ∪ dom h.
Proof. unfold alloc. cbn [fst snd]. by rewrite dom_insert_L. Qed.

Lemma json_load_old (j : pydict JsonEntry) (h : heap) (l : loc) :
  l ∈ dom h → (json_load j h).2 !! l = h !! l.
Proof.
  revert h. induction j as [|[sid e] j IH]; intros h Hl; [done|].
  cbn [json_load].
  pose proof (alloc_old (json_messages e) h l Hl) as Hold.
  pose proof (alloc_dom (json_messages e) h) as Hdom.
  destruct (alloc (json_messages e) h) as [l1 h1]. cbn [fst snd] in *.
  specialize (IH h1). destruct (json_load j h1) as [d h2]. cbn [snd] in *.
  rewrite IH; [done|]. rewrite Hdom, elem_of_union. by right.
Qed.

Lemma json_load_dom (j : pydict JsonEntry) (h : heap) :
  dom h ⊆ dom (json_load j h).2.
Proof.
  intros l Hl. apply elem_of_dom. rewrite json_load_old by done. by apply elem_of_dom.
Qed.


Lemma json_load_closed (j : pydict JsonEntry) (h : heap) :
  Forall (λ kv, entry_messages kv.2 ∈ dom (json_load j h).2) (json_load j h).1.
Proof.
  revert h. induction j as [|[sid e] j IH]; intros h; [by constructor|].
  cbn [json_load].
  pose proof (alloc_dom (json_messages e) h) as Hdom.
  destruct (alloc (json_messages e) h) as [l1 h1]. cbn [fst snd] in *.
  specialize (IH h1). pose proof (json_load_dom j h1) as Hsub.
  destruct (json_load j h1) as [d h2]. cbn [fst snd] in *.
  constructor; [|done]. cbn. apply Hsub. rewrite Hdom, elem_of_union. left. by apply elem_of_singleton.
Qed.








(** ** What a session writes *)

Lemma save_history_frame `{Services} (h : heap) (history : pydict HistoryEntry)
    (user : option string) (name : string) (fs : disk) :
  (∀ u, user = Some u → name ≠ history_filename u) →
  save_history h history user fs !! name = fs !! name.
Proof.
  intros Hname. unfold save_history.
  destruct user as [u|]; [|done].
  destruct (decide (u = "")); [done|].
  apply lookup_insert_ne. intros Heq. by apply (Hname u).
Qed.

Lemma step_guest_mode `{Services} (r : Run) (a : action) :
  guest_mode (state (step r a)) = guest_mode (state r).
Proof.
  destruct a as [|fresh_id|sid|sid fresh_id|vector_db prompt now]; cbn [step].
  - done.
  - unfold new_chat. by destruct (alloc [] (memory r)).
  - unfold select_session. by destruct (dict_get sid _).
  - unfold delete_session. destruct (dict_in sid _); [|done].
    destruct (decide _); [|done]. by destruct (alloc [] (memory r)).
  - unfold chat_turn. by destruct (send_message _ _ _).
Qed.

Lemma step_files_frame `{Services} (r : Run) (a : action) (name : string) :
  name ≠ FAISS_INDEX_PATH →
  guest_mode (state r) = true
  ∨ (∀ u, username (state r) = Some u → name ≠ history_filename u) →
  files (step r a) !! name = files r !! name.
Proof.
  intros Hidx Hown.
  assert (Hsave : ∀ h history,
    (if guest_mode (state r) then files r
     else save_history h history (username (state r)) (files r)) !! name
    = files r !! name).
  { intros h history. destruct (guest_mode (state r)); [done|].
    apply save_history_frame. by destruct Hown. }
  destruct a as [|fresh_id|sid|sid fresh_id|vector_db prompt now]; cbn [step].
  - cbn [files]. by apply load_faiss_index_other.
  - unfold new_chat. by destruct (alloc [] (memory r)).
  - unfold select_session. by destruct (dict_get sid _).
  - unfold delete_session. destruct (dict_in sid _); [|done].
    destruct (decide _); [|by apply Hsave].
    destruct (alloc [] (memory r)). by apply Hsave.
  - unfold chat_turn. destruct (send_message _ _ _); cbn [fst files]; [|done].
    by apply Hsave.
Qed.

Lemma run_files_frame `{Services} (actions : list action) (r : Run) (name : string) :
  name ≠ FAISS_INDEX_PATH →
  guest_mode (state r) = true
  ∨ (∀ u, username (state r) = Some u → name ≠ history_filename u) →
  files (run r actions) !! name = files r !! name.
Proof.
  intros Hidx. unfold run. revert r.
  induction actions as [|a actions IH]; intros r Hown; [done|].
  cbn [foldl]. rewrite IH.
  - by apply step_files_frame.
  - by rewrite step_guest_mode, step_username.
Qed.

Lemma run_guest_mode `{Services} (actions : list action) (r : Run) :
  guest_mode (state (run r actions)) = guest_mode (state r).
Proof.
  unfold run. revert r. induction actions as [|a actions IH]; intros r; [done|].
  cbn [foldl]. by rewrite IH, step_guest_mode.
Qed.

(** X2. A guest session starts with an empty history whatever the files
    hold, stays a guest session, and whatever it does no file is
    written except the index directory that [load_faiss_index] may
    build. *)
Theorem guest_never_writes `{Services} (user : option string) (fresh_id name : string)
    (h : heap) (fs : disk) (actions : list action) :
  name ≠ FAISS_INDEX_PATH →
  let r := init_session user true fresh_id h fs in
  full_history (state r) = []
  ∧ guest_mode (state (run r actions)) = true
  ∧ files (run r actions) !! name = fs !! name.
Proof.
  intros Hname r.
  assert (Hr : full_history (state r) = [] ∧ guest_mode (state r) = true ∧ files r = fs).
  { subst r. unfold init_session. by destruct (alloc [] h). }
  destruct Hr as (Hh & Hg & Hf).
  split_and!; [done|by rewrite run_guest_mode|].
  rewrite run_files_frame; [by rewrite Hf|done|by left].
Qed.

Lemma guest_never_writes_witness :
  let fs : gmap string (@file echo_services) :=
    <[history_filename "Guest" :=
        JsonFile [("id0", mkJsonEntry (Some "old...") [user_message "old"] (Some "t0"))]]> ∅ in
  let actions : list (@action echo_services) :=
    [Chat None "first" "t1"; NewChat "id2"; Chat None "second" "t2"; Delete "id1" "id3"] in
  let r := @init_session echo_services (Some "Guest") true "id1" ∅ fs in
  history_filename "Guest" ≠ FAISS_INDEX_PATH
  ∧ full_history (state r) = []
  ∧ item_id <$> list_sessions (full_history (state (@run echo_services r actions))) = ["id2"]
  ∧ files (@run echo_services r actions) !! history_filename "Guest"
    = fs !! history_filename "Guest".
Proof.
  intros fs actions r.
  assert (Hname : history_filename "Guest" ≠ FAISS_INDEX_PATH) by discriminate.
  destruct (@guest_never_writes echo_services (Some "Guest") "id1"
              (history_filename "Guest") ∅ fs actions Hname) as (H1 & _ & H3).
  split_and!; [exact Hname|exact H1|reflexivity|exact H3].
Defined.






(** ** Write-through *)

Lemma json_dump_alloc (ms : list Message) (h : heap) (history : pydict HistoryEntry) :
  Forall (λ kv, entry_messages kv.2 ∈ dom h) history →
  json_dump (alloc ms h).2 history = json_dump h history.
Proof.
  intros Hclosed. apply json_dump_ext.
  eapply Forall_impl; [exact Hclosed|].
  intros [sid data] Hin. cbn in *. by apply deref_alloc_old.
Qed.





(** ** What a handler leaves alone *)

Lemma dict_get_del_ne {V : Type} (k k' : string) (d : pydict V) :
  k' ≠ k → dict_get k' (dict_del k d) = dict_get k' d.
Proof.
  intros Hne. unfold dict_del. induction d as [|[k0 v0] d IH]; [done|].
  rewrite filter_cons. cbn [fst dict_get].
  destruct (decide (k0 ≠ k)) as [Hk0|Hk0]; cbn [dict_get].
  - by rewrite IH.
  - apply dec_stable in Hk0 as ->. by rewrite decide_False.
Qed.

Lemma dict_get_is_Some {V : Type} (k : string) (d : pydict V) :
  is_Some (dict_get k d) ↔ k ∈ d.*1.
Proof.
  rewrite <- not_eq_None_Some, dict_get_None.
  split; [apply dec_stable|]. by intros Hin Hnot.
Qed.

Lemma list_append_other (l l' : loc) (m : Message) (h : heap) :
  l' ≠ l → list_append l m h !! l' = h !! l'.
Proof. intros Hne. unfold list_append. by rewrite lookup_insert_ne. Qed.

(** X6. A turn, answered or not, touches one session and one list: the
    entry of every other session id is the one from before, every list
    object other than the working list is unchanged, the current session
    and the working list stay the same, and the store gains at most the
    current session. *)
Theorem chat_turn_frame `{Services} (vector_db : option Index) (prompt now : string)
    (r : Run) :
  let r' := (chat_turn vector_db prompt now r).1 in
  (∀ sid, sid ≠ current_session_id (state r) →
     get sid (full_history (state r')) = get sid (full_history (state r)))
  ∧ (∀ l, l ≠ messages (state r) → memory r' !! l = memory r !! l)
  ∧ current_session_id (state r') = current_session_id (state r)
  ∧ messages (state r') = messages (state r)
  ∧ (∀ sid, sid ∈ (full_history (state r')).*1 →
       sid = current_session_id (state r) ∨ sid ∈ (full_history (state r)).*1).
Proof.
  intros r'. subst r'. unfold chat_turn.
  destruct (send_message _ _ _) as [response_text|e];
    cbn [fst state memory full_history current_session_id messages].
  - split_and!; [|  |done|done|].
    + intros sid Hsid. unfold get. by apply dict_get_set_ne.
    + intros l Hl. by rewrite !list_append_other.
    + intros sid Hin.
      destruct (decide (sid = current_session_id (state r))) as [|Hne]; [by left|].
      right. apply dict_get_is_Some. apply dict_get_is_Some in Hin.
      by rewrite dict_get_set_ne in Hin.
  - split_and!; [done| |done|done|by right].
    intros l Hl. by rewrite list_append_other.
Qed.

Lemma chat_turn_frame_witness :
  let r0 := @init_session echo_services (Some "alice") false "id1" ∅ ∅ in
  let r1 := (@chat_turn echo_services None "first" "t1" r0).1 in
  let r2 := @new_chat echo_services "id2" r1 in
  let r3 := (@chat_turn echo_services None "second" "t2" r2).1 in
  "id1" ≠ current_session_id (state r2)
  ∧ get "id1" (full_history (state r3))
    = Some (mkHistoryEntry (Some "first...") (messages (state r1)) (Some "t1"))
  ∧ messages (state r1) ≠ messages (state r2)
  ∧ deref (memory r3) (messages (state r1))
    = [user_message "first"; assistant_message "echo first"].
Proof.
  intros r0 r1 r2 r3.
  assert (Hsid : "id1" ≠ current_session_id (state r2)) by discriminate.
  assert (Hl : messages (state r1) ≠ messages (state r2)) by discriminate.
  destruct (@chat_turn_frame echo_services None "second" "t2" r2) as (H1 & H2 & _).
  split_and!; [exact Hsid| |exact Hl|].
  - etransitivity; [exact (H1 "id1" Hsid)|reflexivity].
  - unfold deref. etransitivity; [exact (f_equal (default []) (H2 _ Hl))|reflexivity].
Defined.

Lemma sessions_list_del (sid : string) (history : pydict HistoryEntry) :
  sessions_list (dict_del sid history) = filter (λ it, item_id it ≠ sid) (sessions_list history).
Proof.
  unfold sessions_list, dict_del. induction history as [|[k v] history IH]; [done|].
  rewrite fmap_cons, !filter_cons. cbn [fst snd item_id].
  destruct (decide (k ≠ sid)); [rewrite fmap_cons|]; by rewrite IH.
Qed.

(** X7. Deleting a session removes that one entry and nothing else: the
    sidebar lists the other sessions in the order they had, every other
    id still finds its entry, and no list object changes. *)
Theorem delete_session_frame `{Services} (sid fresh_id : string) (r : Run) :
  let r' := delete_session sid fresh_id r in
  list_sessions (full_history (state r'))
  = filter (λ it, item_id it ≠ sid) (list_sessions (full_history (state r)))
  ∧ (∀ sid', sid' ≠ sid →
       get sid' (full_history (state r')) = get sid' (full_history (state r)))
  ∧ (∀ l, l ∈ dom (memory r) → memory r' !! l = memory r !! l).
Proof.
  intros r'. subst r'. rewrite delete_session_history. split_and!.
  - unfold list_sessions. by rewrite sessions_list_del, filter_reverse.
  - intros sid' Hne. unfold get. by apply dict_get_del_ne.
  - intros l Hl. unfold delete_session.
    destruct (dict_in sid _); [|done]. destruct (decide _); [|done].
    pose proof (alloc_old [] (memory r) l Hl) as Hold.
    by destruct (alloc [] (memory r)).
Qed.

Lemma delete_session_frame_witness :
  let r0 := @init_session echo_services (Some "alice") false "id1" ∅ ∅ in
  let r1 := (@chat_turn echo_services None "first" "t1" r0).1 in
  let r2 := (@chat_turn echo_services None "second" "t2"
               (@new_chat echo_services "id2" r1)).1 in
  let r3 := (@chat_turn echo_services None "third" "t3"
               (@new_chat echo_services "id3" r2)).1 in
  let r' := @delete_session echo_services "id2" "id4" r3 in
  "id1" ≠ "id2"
  ∧ item_id <$> list_sessions (full_history (state r3)) = ["id3"; "id2"; "id1"]
  ∧ item_id <$> list_sessions (full_history (state r')) = ["id3"; "id1"]
  ∧ get "id1" (full_history (state r')) = get "id1" (full_history (state r3)).
Proof.
  intros r0 r1 r2 r3 r'.
  assert (Hne : "id1" ≠ "id2") by discriminate.
  destruct (@delete_session_frame echo_services "id2" "id4" r3) as (H1 & H2 & _).
  split_and!; [exact Hne|reflexivity| |exact (H2 "id1" Hne)].
  etransitivity; [exact (f_equal (fmap item_id) H1)|reflexivity].
Defined.

Lemma dict_get_elem {V : Type} (k : string) (v : V) (d : pydict V) :
  dict_get k d = Some v → (k, v) ∈ d.
Proof.
  induction d as [|[k' v'] d IH]; [done|]. cbn [dict_get].
  destruct (decide (k = k')) as [->|_].
  - intros [= ->]. apply list_elem_of_here.
  - intros Hget. apply list_elem_of_further. by apply IH.
Qed.




(** ** References *)

Lemma list_append_dom (l : loc) (m : Message) (h : heap) :
  dom h ⊆ dom (list_append l m h).
Proof. unfold list_append. rewrite dom_insert_L. apply union_subseteq_r. Qed.

Lemma chat_turn_memory_other `{Services} (vector_db : option Index) (prompt now : string)
    (r : Run) (l : loc) :
  l ≠ messages (state r) →
  memory (chat_turn vector_db prompt now r).1 !! l = memory r !! l.
Proof.
  intros Hl. unfold chat_turn.
  destruct (send_message _ _ _); cbn [fst memory]; by rewrite ?list_append_other.
Qed.

Lemma chat_turn_dom `{Services} (vector_db : option Index) (prompt now : string) (r : Run) :
  dom (memory r) ⊆ dom (memory (chat_turn vector_db prompt now r).1).
Proof.
  unfold chat_turn. destruct (send_message _ _ _); cbn [fst memory].
  - etransitivity; apply list_append_dom.
  - apply list_append_dom.
Qed.

Lemma new_chat_alloc `{Services} (fresh_id : string) (r : Run) :
  new_chat fresh_id r
  = mkRun (mkSessionState (username (state r)) (guest_mode (state r))
                          (full_history (state r)) fresh_id (alloc [] (memory r)).1)
          (alloc [] (memory r)).2 (files r).
Proof. unfold new_chat. by destruct (alloc [] (memory r)). Qed.

(** X9. New Chat gives an empty working list that no stored session
    shares: the model gets an empty history with the first prompt, and
    the turn, answered or not, leaves the messages of every session that
    was stored before as they were. *)
Theorem new_chat_isolated `{Services} (vector_db : option Index)
    (fresh_id prompt now : string) (r : Run) :
  heap_closed r →
  let r1 := new_chat fresh_id r in
  let t := chat_turn vector_db prompt now r1 in
  deref (memory r1) (messages (state r1)) = []
  ∧ t.2 = match send_message (full_system_prompt (retrieval_context vector_db prompt))
                             [] prompt with
          | Return response_text => Answered response_text
          | Raise e => Failed e
          end
  ∧ Forall (λ kv, entry_messages kv.2 ≠ messages (state r1)) (full_history (state r))
  ∧ Forall (λ kv, deref (memory t.1) (entry_messages kv.2)
                  = deref (memory r) (entry_messages kv.2)) (full_history (state r)).
Proof.
  intros [_ Hclosed] r1 t. subst t r1. rewrite chat_turn_outcome, !new_chat_alloc.
  cbn [state memory messages].
  pose proof (alloc_fresh [] (memory r)) as Hfresh.
  assert (Hfar : Forall (λ kv, entry_messages kv.2 ≠ (alloc [] (memory r)).1)
                        (full_history (state r))).
  { eapply Forall_impl; [exact Hclosed|]. intros kv Hin Heq.
    apply Hfresh. by rewrite <- Heq. }
  split_and!; [apply deref_alloc|by rewrite deref_alloc|done|].
  apply Forall_forall. intros kv Hkv.
  rewrite Forall_forall in Hclosed, Hfar.
  unfold deref at 1. rewrite chat_turn_memory_other by by apply Hfar.
  cbn [memory]. fold (deref (alloc [] (memory r)).2 (entry_messages kv.2)).
  apply deref_alloc_old. by apply Hclosed.
Qed.

Lemma Forall_dict_set {V : Type} (P : string * V → Prop) (k : string) (v : V) (d : pydict V) :
  P (k, v) → Forall P d → Forall P (dict_set k v d).
Proof.
  intros Hv. induction 1 as [|[k' v'] d Hd Hrest IH]; cbn [dict_set].
  - by repeat constructor.
  - destruct (decide (k = k')); by constructor.
Qed.

Lemma heap_closed_mono `{Services} (history : pydict HistoryEntry) (h h' : heap) :
  dom h ⊆ dom h' →
  Forall (λ kv, entry_messages kv.2 ∈ dom h) history →
  Forall (λ kv, entry_messages kv.2 ∈ dom h') history.
Proof.
  intros Hsub Hall. eapply Forall_impl; [exact Hall|].
  intros kv Hin. by apply Hsub.
Qed.

Lemma alloc_dom_sub (ms : list Message) (h : heap) : dom h ⊆ dom (alloc ms h).2.
Proof. rewrite alloc_dom. apply union_subseteq_r. Qed.

Lemma alloc_in_dom (ms : list Message) (h : heap) : (alloc ms h).1 ∈ dom (alloc ms h).2.
Proof. rewrite alloc_dom, elem_of_union. left. by apply elem_of_singleton. Qed.

Lemma init_session_closed `{Services} (user : option string) (guest : bool)
    (fresh_id : string) (h : heap) (fs : disk) :
  heap_closed (init_session user guest fresh_id h fs).
Proof.
  unfold init_session.
  assert (Hload : ∀ p : pydict HistoryEntry * heap,
    p = (if guest then ([], h) else load_history user h fs) →
    Forall (λ kv, entry_messages kv.2 ∈ dom p.2) p.1).
  { intros p ->. destruct guest; [by constructor|].
    unfold load_history. destruct user as [u|]; [|by constructor].
    destruct (decide (u = "")); [by constructor|].
    destruct (fs !! history_filename u) as [[j| | |]|]; try by constructor.
    apply json_load_closed. }
  specialize (Hload _ eq_refl).
  destruct (if guest then _ else _) as [history h1]. cbn [fst snd] in Hload.
  pose proof (alloc_in_dom [] h1) as Hin. pose proof (alloc_dom_sub [] h1) as Hsub.
  destruct (alloc [] h1) as [l h2]. cbn [fst snd] in *.
  split; [done|]. by apply (heap_closed_mono history h1 h2).
Qed.

Lemma step_closed `{Services} (r : Run) (a : action) :
  heap_closed r → heap_closed (step r a).
Proof.
  intros [Hmsg Hhist].
  destruct a as [|fresh_id|sid|sid fresh_id|vector_db prompt now]; cbn [step].
  - done.
  - rewrite new_chat_alloc. split; cbn [state memory messages full_history].
    + apply alloc_in_dom.
    + eapply heap_closed_mono; [apply alloc_dom_sub|done].
  - unfold select_session. destruct (dict_get sid _) as [data|] eqn:Hget; [|done].
    split; [|done]. cbn [state memory messages].
    apply dict_get_elem in Hget. rewrite Forall_forall in Hhist.
    by apply (Hhist _ Hget).
  - unfold delete_session. destruct (dict_in sid _); [|done].
    assert (Hdel : Forall (λ kv, entry_messages kv.2 ∈ dom (memory r))
                          (dict_del sid (full_history (state r)))).
    { apply Forall_forall. intros kv [_ Hin]%list_elem_of_filter.
      rewrite Forall_forall in Hhist. by apply Hhist. }
    destruct (decide _); [|done].
    pose proof (alloc_in_dom [] (memory r)) as Hin.
    pose proof (alloc_dom_sub [] (memory r)) as Hsub.
    destruct (alloc [] (memory r)) as [l h]. cbn [fst snd] in *.
    split; [done|]. by apply (heap_closed_mono _ (memory r) h).
  - pose proof (chat_turn_dom vector_db prompt now r) as Hsub.
    unfold chat_turn in *. destruct (send_message _ _ _);
      cbn [fst state memory messages full_history] in *.
    + split; [by apply Hsub|].
      apply Forall_dict_set; [by apply Hsub|].
      by eapply heap_closed_mono.
    + split; [by apply Hsub|]. by eapply heap_closed_mono.
Qed.

Lemma load_history_keys `{Services} (user : option string) (h : heap) (fs : disk) :
  (∀ u j, user = Some u → fs !! history_filename u = Some (JsonFile j) → NoDup j.*1) →
  NoDup (load_history user h fs).1.*1.
Proof.
  intros Hfile. unfold load_history. destruct user as [u|]; [|apply NoDup_nil_2].
  destruct (decide (u = "")); [apply NoDup_nil_2|].
  destruct (fs !! history_filename u) as [[j| | |]|] eqn:Hf; try apply NoDup_nil_2.
  rewrite json_load_keys. by apply (Hfile u).
Qed.

(** X10. Every state a session can reach is well formed: when the ids of
    the history file it starts from are distinct, the ids of the store
    stay distinct, and neither the working list nor the list of a stored
    session ever refers to an object that the heap does not hold. *)
Theorem reachable_well_formed `{Services} (user : option string) (guest : bool)
    (fresh_id : string) (h : heap) (fs : disk) (actions : list action) :
  (∀ u j, user = Some u → fs !! history_filename u = Some (JsonFile j) → NoDup j.*1) →
  let r := run (init_session user guest fresh_id h fs) actions in
  heap_closed r ∧ NoDup (full_history (state r)).*1.
Proof.
  intros Hfile r. subst r.
  assert (Hinit : heap_closed (init_session user guest fresh_id h fs)
                  ∧ NoDup (full_history (state (init_session user guest fresh_id h fs))).*1).
  { split; [apply init_session_closed|].
    unfold init_session.
    pose proof (load_history_keys user h fs Hfile) as Hkeys.
    destruct guest.
    - destruct (alloc [] h). apply NoDup_nil_2.
    - destruct (load_history user h fs) as [history h1].
      by destruct (alloc [] h1). }
  revert Hinit. generalize (init_session user guest fresh_id h fs) as r.
  unfold run. induction actions as [|a actions IH]; intros r [Hc Hn]; [done|].
  cbn [foldl]. apply IH. split; [by apply step_closed|by apply step_NoDup].
Qed.

Lemma new_chat_isolated_witness :
  let r0 := @init_session echo_services (Some "alice") false "id1" ∅ ∅ in
  let r1 := (@chat_turn echo_services None "first" "t1" r0).1 in
  let t := @chat_turn echo_services None "second" "t2" (@new_chat echo_services "id2" r1) in
  heap_closed r1
  ∧ t.2 = Answered "echo second"
  ∧ deref (memory r1) (messages (state r1))
    = [user_message "first"; assistant_message "echo first"]
  ∧ Forall (λ kv, deref (memory t.1) (entry_messages kv.2)
                  = deref (memory r1) (entry_messages kv.2))
           (full_history (state r1)).
Proof.
  intros r0 r1 t.
  assert (Hclosed : heap_closed r1).
  { split; [|repeat constructor]; apply elem_of_dom; eexists; reflexivity. }
  destruct (@new_chat_isolated echo_services None "id2" "second" "t2" r1 Hclosed)
    as (_ & H2 & _ & H4).
  split_and!; [exact Hclosed|exact H2|reflexivity|exact H4].
Defined.

Lemma reachable_well_formed_witness :
  let fs : gmap string (@file echo_services) :=
    <[history_filename "alice" :=
        JsonFile [("id0", mkJsonEntry (Some "old...") [user_message "old"] (Some "t0"))]]> ∅ in
  let actions : list (@action echo_services) :=
    [Select "id0"; Chat None "more" "t1"; NewChat "id2"; Chat None "second" "t2";
     Delete "id0" "id3"] in
  let r := @run echo_services
             (@init_session echo_services (Some "alice") false "id1" ∅ fs) actions in
  (∀ u j, Some "alice" = Some u → fs !! history_filename u = Some (JsonFile j) → NoDup j.*1)
  ∧ heap_closed r
  ∧ (full_history (state r)).*1 = ["id2"].
Proof.
  intros fs actions r.
  assert (Hfile : ∀ u j, Some "alice" = Some u →
            fs !! history_filename u = Some (JsonFile j) → NoDup j.*1).
  { intros u j [= <-] [= <-]. apply NoDup_singleton. }
  destruct (@reachable_well_formed echo_services (Some "alice") false "id1" ∅ fs
              actions Hfile) as (H1 & _).
  split_and!; [exact Hfile|exact H1|reflexivity].
Defined.

(** ** Failed turns *)




(** ** Lengths of titles *)

Lemma substring_length (n : nat) (s : string) :
  (String.length (String.substring 0 n s) ≤ n)%nat.
Proof.
  destruct (substring_prefix n s) as (rest & _ & Hlen). rewrite Hlen. lia.
Qed.

(** X12. A title has at most 33 characters: 30 of the first user message
    and the three dots. *)
Theorem get_session_title_length (ms : list Message) :
  (String.length (get_session_title ms) ≤ 33)%nat.
Proof.
  induction ms as [|m ms IH]; cbn [get_session_title].
  - cbn. lia.
  - destruct (decide (role m = "user")); [|done].
    rewrite append_length. pose proof (substring_length 30 (content m)). cbn. lia.
Qed.

(** X13. The label of a session in the sidebar has at most 20
    characters: a title of at most 20 characters is shown as it is, a
    longer one as its first 18 characters and two dots. *)
Theorem display_title_length (title : string) :
  (String.length (display_title title) ≤ 20)%nat
  ∧ ((String.length title ≤ 20)%nat → display_title title = title)
  ∧ ((20 < String.length title)%nat →
     String.length (display_title title) = 20
     ∧ ∃ rest, title = String.substring 0 18 title +:+ rest
               ∧ display_title title = String.substring 0 18 title +:+ "..").
Proof.
  unfold display_title.
  destruct (substring_prefix 18 title) as (rest & Hrest & Hlen).
  destruct (decide (20 < String.length title)%nat) as [Hlong|Hshort].
  - rewrite append_length, Hlen. cbn [String.length].
    split_and!; [lia|lia|]. intros _. split; [lia|]. by exists rest.
  - split_and!; [lia|done|lia].
Qed.

Lemma display_title_length_witness :
  let title := get_session_title
                 [user_message "Please tell me where the office printer is located"] in
  (20 < String.length title)%nat
  ∧ title = "Please tell me where the offic..."
  ∧ display_title title = "Please tell me whe.."
  ∧ String.length (display_title title) = 20
  ∧ display_title "New Chat" = "New Chat".
Proof.
  intros title.
  assert (Hlong : (20 < String.length title)%nat) by (vm_compute; lia).
  assert (Hshort : (String.length "New Chat" ≤ 20)%nat) by (vm_compute; lia).
  destruct (display_title_length title) as (_ & _ & H3).
  destruct (display_title_length "New Chat") as (_ & H2 & _).
  split_and!; [exact Hlong|reflexivity|reflexivity|exact (proj1 (H3 Hlong))|exact (H2 Hshort)].
Defined.

(** ** The saved index *)

Lemma exists_true `{Services} (name : string) (fs : disk) :
  is_Some (fs !! name) → exists_ name fs = true.
Proof. intros Hsome. unfold exists_. by apply bool_decide_eq_true. Qed.

Lemma load_saved_index_save `{Services} (vector_db : Index) (fs : disk) :
  load_saved_index (save_local vector_db FAISS_INDEX_PATH fs) = Some vector_db.
Proof. unfold load_saved_index, load_local, save_local. by rewrite lookup_insert_eq. Qed.

Lemma load_saved_index_Some `{Services} (vector_db : Index) (fs : disk) :
  load_saved_index fs = Some vector_db ↔ fs !! FAISS_INDEX_PATH = Some (IndexDir vector_db).
Proof.
  unfold load_saved_index, load_local.
  destruct (fs !! FAISS_INDEX_PATH) as [[| |index|]|]; split; intros Heq;
    try discriminate; by injection Heq as ->.
Qed.

Lemma load_faiss_index_present `{Services} (fs : disk) :
  is_Some (fs !! FAISS_INDEX_PATH) → load_faiss_index fs = (load_saved_index fs, fs).
Proof. intros Hsome. unfold load_faiss_index. by rewrite (exists_true _ _ Hsome). Qed.

(** X14. The index is built once: when [load_faiss_index] returns a
    store, that store is what the index directory holds afterwards, and
    a further call returns the same store and writes nothing. *)
Theorem load_faiss_index_once `{Services} (fs : disk) (vector_db : Index) :
  (load_faiss_index fs).1 = Some vector_db →
  (load_faiss_index fs).2 !! FAISS_INDEX_PATH = Some (IndexDir vector_db)
  ∧ load_faiss_index (load_faiss_index fs).2 = (Some vector_db, (load_faiss_index fs).2).
Proof.
  intros Hdb.
  assert (Hfile : (load_faiss_index fs).2 !! FAISS_INDEX_PATH = Some (IndexDir vector_db)).
  { revert Hdb. unfold load_faiss_index.
    destruct (negb (exists_ FAISS_INDEX_PATH fs)); cbn [fst snd].
    - destruct (exists_ KNOWLEDGE_FILE fs); [|done].
      destruct (build_index fs) as [built|]; [|done]. cbn [fst snd].
      by intros ?%load_saved_index_Some.
    - by intros ?%load_saved_index_Some. }
  split; [done|].
  rewrite load_faiss_index_present by by rewrite Hfile.
  f_equal. by apply load_saved_index_Some.
Qed.

Lemma load_faiss_index_once_witness :
  let fs : gmap string (@file echo_services) :=
    <[KNOWLEDGE_FILE := TextFile "The printer is on floor 2."]> ∅ in
  let db : @Index echo_services := [mkDocument "The printer is on floor 2."] in
  (@load_faiss_index echo_services fs).1 = Some db
  ∧ (@load_faiss_index echo_services fs).2 = <[FAISS_INDEX_PATH := IndexDir db]> fs
  ∧ @load_faiss_index echo_services (@load_faiss_index echo_services fs).2
    = (Some db, (@load_faiss_index echo_services fs).2).
Proof.
  intros fs db.
  assert (Hdb : (@load_faiss_index echo_services fs).1 = Some db) by reflexivity.
  destruct (@load_faiss_index_once echo_services fs db Hdb) as (_ & H2).
  split_and!; [exact Hdb|reflexivity|exact H2].
Defined.

(** X15. An index directory that exists is never rebuilt: the call
    writes nothing, its result does not depend on the knowledge file (a
    changed knowledge base is not picked up), and a directory that does
    not load gives no store, with or without a knowledge file. *)
Theorem saved_index_not_rebuilt `{Services} (fs : disk) (saved content : file) :
  fs !! FAISS_INDEX_PATH = Some saved →
  (load_faiss_index fs).2 = fs
  ∧ (load_faiss_index (<[KNOWLEDGE_FILE := content]> fs)).1 = (load_faiss_index fs).1
  ∧ (load_faiss_index (delete KNOWLEDGE_FILE fs)).1 = (load_faiss_index fs).1
  ∧ (load_faiss_index fs).1
    = match saved with IndexDir vector_db => Some vector_db | _ => None end.
Proof.
  intros Hidx.
  assert (Hne : KNOWLEDGE_FILE ≠ FAISS_INDEX_PATH) by discriminate.
  rewrite !load_faiss_index_present; cbn [fst snd];
    rewrite ?lookup_insert_ne, ?lookup_delete_ne, ?Hidx by done; [|done..].
  unfold load_saved_index, load_local.
  rewrite lookup_insert_ne, lookup_delete_ne, Hidx by done.
  split_and!; [done|done|done|]. by destruct saved.
Qed.

Lemma saved_index_not_rebuilt_witness :
  let fs : gmap string (@file echo_services) :=
    <[FAISS_INDEX_PATH := Corrupt]>
      (<[KNOWLEDGE_FILE := TextFile "The printer is on floor 2."]> ∅) in
  fs !! FAISS_INDEX_PATH = Some Corrupt
  ∧ @load_faiss_index echo_services fs = (None, fs).
Proof.
  intros fs.
  assert (Hidx : fs !! FAISS_INDEX_PATH = Some Corrupt) by reflexivity.
  destruct (@saved_index_not_rebuilt echo_services fs Corrupt Corrupt Hidx)
    as (H1 & _ & _ & H4).
  split; [exact Hidx|].
  rewrite (surjective_pairing (@load_faiss_index echo_services fs)).
  by rewrite H1, H4.
Defined.

Lemma build_index_knowledge `{Services} (fs : disk) (vector_db : Index) :
  build_index fs = Return vector_db → exists_ KNOWLEDGE_FILE fs = true.
Proof.
  intros (documents & _ & Hload & _)%build_index_Return.
  apply exists_true. unfold TextLoader_load in Hload.
  by destruct (fs !! KNOWLEDGE_FILE).
Qed.

(** X16. When load, split and embed succeed, [create_vector_db] saves
    the store that was built, over any index that was saved before, and
    returns normally; the application then loads that very store and
    writes nothing. *)
Theorem create_vector_db_then_load `{Services} (fs : disk) (vector_db : Index) :
  build_index fs = Return vector_db →
  create_vector_db fs = (<[FAISS_INDEX_PATH := IndexDir vector_db]> fs, Return ())
  ∧ load_faiss_index (create_vector_db fs).1 = (Some vector_db, (create_vector_db fs).1).
Proof.
  intros Hbuild.
  assert (Hcreate : create_vector_db fs
                    = (<[FAISS_INDEX_PATH := IndexDir vector_db]> fs, Return ())).
  { unfold create_vector_db.
    by rewrite (build_index_knowledge _ _ Hbuild), Hbuild. }
  split; [done|]. rewrite Hcreate. cbn [fst].
  rewrite load_faiss_index_present by by rewrite lookup_insert_eq.
  f_equal. apply load_saved_index_save.
Qed.

Lemma create_vector_db_then_load_witness :
  let stale : @Index echo_services := [mkDocument "old passage"] in
  let fs : gmap string (@file echo_services) :=
    <[FAISS_INDEX_PATH := IndexDir stale]>
      (<[KNOWLEDGE_FILE := TextFile "The printer is on floor 2."]> ∅) in
  let db : @Index echo_services := [mkDocument "The printer is on floor 2."] in
  @build_index echo_services fs = Return db
  ∧ (@load_faiss_index echo_services fs).1 = Some stale
  ∧ (@load_faiss_index echo_services (@create_vector_db echo_services fs).1).1 = Some db.
Proof.
  intros stale fs db.
  assert (Hbuild : @build_index echo_services fs = Return db) by reflexivity.
  destruct (@create_vector_db_then_load echo_services fs db Hbuild) as (_ & H2).
  split_and!; [exact Hbuild|reflexivity|].
  by rewrite H2.
Defined.

(** X17. Without a saved index the application builds what the script
    builds: after [load_faiss_index] the files are those that
    [create_vector_db] leaves, whether the build succeeds, fails or has
    no knowledge file to start from. *)
Theorem builders_agree `{Services} (fs : disk) :
  fs !! FAISS_INDEX_PATH = None →
  (load_faiss_index fs).2 = (create_vector_db fs).1.
Proof.
  intros Hidx. unfold load_faiss_index, create_vector_db.
  rewrite (exists_false _ _ Hidx). cbn [negb].
  destruct (exists_ KNOWLEDGE_FILE fs); cbn [negb]; [|done].
  by destruct (build_index fs).
Qed.

Lemma builders_agree_witness :
  let fs : gmap string (@file echo_services) :=
    <[KNOWLEDGE_FILE := TextFile "The printer is on floor 2."]> ∅ in
  fs !! FAISS_INDEX_PATH = None
  ∧ (@load_faiss_index echo_services fs).2 = (@create_vector_db echo_services fs).1
  ∧ (@create_vector_db echo_services fs).1 !! FAISS_INDEX_PATH
    = Some (@IndexDir echo_services [mkDocument "The printer is on floor 2."]).
Proof.
  intros fs.
  assert (Hidx : fs !! FAISS_INDEX_PATH = None) by reflexivity.
  split_and!; [exact Hidx|exact (@builders_agree echo_services fs Hidx)|reflexivity].
Defined.

(** ** Accounts *)

Lemma register_created (hash_password : string → string) (reg_user reg_pass : string)
    (f : Auth.users_file) :
  dict_in reg_user (Auth.load_users f) = false → reg_user ≠ "" → reg_pass ≠ "" →
  Auth.register hash_password reg_user reg_pass f
  = (Auth.UsersJson (dict_set reg_user (hash_password reg_pass) (Auth.load_users f)),
     "Account created! Switch to Login.").
Proof.
  intros Hnew Hu Hp. unfold Auth.register. rewrite Hnew.
  by rewrite !bool_decide_eq_false_2.
Qed.

(** X18. An account that was just created can sign in: with the password
    it was created with the login succeeds, sets the flags and the
    cookie of that user, and the cookie signs the user in on a later
    visit; a password with another hash is refused and changes
    nothing. *)
Theorem register_then_login (hash_password : string → string)
    (user pass : string) (f : Auth.users_file) (st : Auth.flags) (cookie : option string) :
  dict_in user (Auth.load_users f) = false →
  user ≠ "" →
  pass ≠ "" →
  let f' := (Auth.register hash_password user pass f).1 in
  Auth.login hash_password user pass f' st cookie
  = (Auth.mkFlags true (Some user) false, Some user, None)
  ∧ Auth.auto_login (Some user) f' = Auth.mkFlags true (Some user) false
  ∧ ∀ other, hash_password other ≠ hash_password pass →
      Auth.login hash_password user other f' st cookie
      = (st, cookie, Some "Invalid username or password").
Proof.
  intros Hnew Hu Hp f'. subst f'.
  rewrite (register_created _ _ _ _ Hnew Hu Hp). cbn [fst].
  assert (Hin : dict_in user (dict_set user (hash_password pass) (Auth.load_users f)) = true).
  { apply dict_in_true, dict_get_is_Some. by rewrite dict_get_set. }
  unfold Auth.login, Auth.auto_login. cbn [Auth.load_users].
  rewrite Hin, dict_get_set. split_and!.
  - by rewrite bool_decide_eq_true_2.
  - by rewrite bool_decide_eq_false_2.
  - intros other Hother. rewrite bool_decide_eq_false_2; [done|].
    intros [= Heq]. by apply Hother.
Qed.

Lemma register_then_login_witness :
  let hash := λ s : string, "#" +:+ s in
  let f' := (Auth.register hash "alice" "secret" Auth.NoFile).1 in
  dict_in "alice" (Auth.load_users Auth.NoFile) = false
  ∧ f' = Auth.UsersJson [("alice", "#secret")]
  ∧ Auth.login hash "alice" "secret" f' Auth.signed_out None
    = (Auth.mkFlags true (Some "alice") false, Some "alice", None)
  ∧ Auth.login hash "alice" "guess" f' Auth.signed_out None
    = (Auth.signed_out, None, Some "Invalid username or password").
Proof.
  intros hash f'.
  assert (Hnew : dict_in "alice" (Auth.load_users Auth.NoFile) = false) by reflexivity.
  assert (Hu : "alice" ≠ "") by discriminate.
  assert (Hp : "secret" ≠ "") by discriminate.
  destruct (register_then_login hash "alice" "secret" Auth.NoFile Auth.signed_out None
              Hnew Hu Hp) as (H1 & _ & H3).
  split_and!; [exact Hnew|reflexivity|exact H1|].
  apply H3. discriminate.
Defined.

(** X19. Creating an account never touches another one: every other
    name keeps its hash, a name that is taken keeps its own and the file
    stays as it is, an empty name or password is refused, and the names
    stay distinct and non-empty when they were. *)
Theorem register_keeps_accounts (hash_password : string → string)
    (user pass : string) (f : Auth.users_file) :
  let f' := (Auth.register hash_password user pass f).1 in
  (∀ other, other ≠ user →
     dict_get other (Auth.load_users f') = dict_get other (Auth.load_users f))
  ∧ (dict_in user (Auth.load_users f) = true ∨ user = "" ∨ pass = "" → f' = f)
  ∧ (NoDup (Auth.load_users f).*1 → NoDup (Auth.load_users f').*1)
  ∧ (Forall (λ name, name ≠ "") (Auth.load_users f).*1 →
     Forall (λ name, name ≠ "") (Auth.load_users f').*1).
Proof.
  intros f'. subst f'. unfold Auth.register.
  destruct (dict_in user (Auth.load_users f)) eqn:Hin; cbn [fst].
  { by split_and!. }
  destruct (bool_decide (user = "")) eqn:Hu; cbn [orb fst].
  { by split_and!. }
  destruct (bool_decide (pass = "")) eqn:Hp; cbn [fst].
  { by split_and!. }
  apply bool_decide_eq_false in Hu, Hp. cbn [Auth.save_users Auth.load_users].
  split_and!.
  - intros other Hne. by apply dict_get_set_ne.
  - intros [?|[?|?]]; done.
  - apply dict_set_NoDup.
  - intros Hall. apply dict_in_false in Hin.
    rewrite dict_set_new, fmap_app by done.
    apply Forall_app. split; [done|]. by repeat constructor.
Qed.

Lemma register_keeps_accounts_witness :
  let hash := λ s : string, "#" +:+ s in
  let f := Auth.UsersJson [("alice", "#secret")] in
  "alice" ≠ "bob"
  ∧ dict_in "alice" (Auth.load_users f) = true
  ∧ (Auth.register hash "alice" "other" f).1 = f
  ∧ dict_get "alice" (Auth.load_users (Auth.register hash "bob" "pw" f).1)
    = Some "#secret".
Proof.
  intros hash f.
  assert (Hne : "alice" ≠ "bob") by discriminate.
  assert (Hin : dict_in "alice" (Auth.load_users f) = true) by reflexivity.
  destruct (register_keeps_accounts hash "alice" "other" f) as (_ & H2 & _).
  destruct (register_keeps_accounts hash "bob" "pw" f) as (H1 & _).
  split_and!; [exact Hne|exact Hin|exact (H2 (or_introl Hin))|].
  etransitivity; [exact (H1 "alice" Hne)|reflexivity].
Defined.
